(** * script.js of the civic issue reporting page, embedded in Rocq

    The page script wires a mobile navigation drawer, schedules the creation
    of a Leaflet map, reports navigation timing on the [load] event and
    redirects a button click to the report page.

    The embedding is shallow: the browser state the script reads and writes
    is a record [World]; every function of the script is a computation in a
    state-and-exception monad [JS] over that record; the callbacks the script
    hands to the browser are the constructors of [Callback], and the browser's
    event loop ([dispatch], [step]) invokes them.

    Conventions: numbers are binary64 floats; tag names are stored in lower
    case; an element is referred to by its position in the document; every
    callback of the script is registered at most once per page, so the
    browser's merging of identical listeners never applies and is left
    out. *)

From Stdlib Require Import ZArith Floats.
From stdpp Require Import base gmap strings list.

Open Scope Z_scope.
Open Scope string_scope.
Open Scope list_scope.

#[local] Set Warnings "-inexact-float,-clear-no-such-hyp".

(** ** Values the script manipulates *)

(** [document.readyState]. *)
Inductive ReadyState := Loading | Interactive | Complete.

#[export] Instance ReadyState_eq_dec : EqDecision ReadyState.
Proof. solve_decision. Defined.

(** Exceptions.  [TypeError] is what a property access on [null] raises,
    [ReferenceError] a free identifier that is not defined, [SyntaxError] is
    the DOMException of [performance.measure] on an unknown mark, and
    [LibraryError] stands for any value thrown by third-party code. *)
Inductive JsError :=
| TypeError (msg : string)
| ReferenceError (msg : string)
| SyntaxError (msg : string)
| LibraryError (msg : string).

#[export] Instance JsError_eq_dec : EqDecision JsError.
Proof. solve_decision. Defined.

(** An element of the document.  The document is the list of its elements in
    tree order; [parentElement] is an index into that list.  [classList] is a
    token set: the script only adds, removes, toggles and tests tokens. *)
Record Element := mkElement {
  tagName : string;
  el_id : option string;
  classList : gset string;
  parentElement : option nat;
}.

Abbreviation Document := (list Element).

Definition set_classList (c : gset string) (e : Element) : Element :=
  {| tagName := tagName e; el_id := el_id e; classList := c;
     parentElement := parentElement e |}.

(** Where a listener can be attached. *)
Inductive EventTarget := TElement (i : nat) | TDocument | TWindow.

#[export] Instance EventTarget_eq_dec : EqDecision EventTarget.
Proof. solve_decision. Defined.

(** The function values the script creates.  [toggleMenu], [closeMenu] and
    the arrow function of lines 32-39 are closures over the constants
    [menuToggle] and [mobileSidebar] of the enclosing [initializeMenu] call;
    they carry the two element references they captured. *)
Inductive Callback :=
| toggleMenu_fn (menuToggle mobileSidebar : nat)
| closeMenu_fn (menuToggle mobileSidebar : nat)
| delegatedClick_fn (menuToggle mobileSidebar : nat)
| initializeMap_fn
| onDOMContentLoaded_fn
| onLoad_fn
| onReportClick_fn.

#[export] Instance Callback_eq_dec : EqDecision Callback.
Proof. solve_decision. Defined.

(** An entry of an event target's listener list; [l_once] is the
    [{ once: true }] option. *)
Record Listener := mkListener {
  l_target : EventTarget;
  l_type : string;
  l_callback : Callback;
  l_once : bool;
}.

#[export] Instance Listener_eq_dec : EqDecision Listener.
Proof. solve_decision. Defined.

(** What the script prints.  The object literal logged by the timing
    reporter is the list of its properties in insertion order. *)
Inductive ConsoleEntry :=
| console_log (label : string) (obj : list (string * float))
| console_warn (label : string) (e : JsError).

(** A performance entry is a property bag of numbers (IEEE doubles). *)
Abbreviation PerfEntry := (gmap string float).

(** [window.performance]: which of the optional methods exist, the marks and
    measures recorded so far, and the entries of type ["navigation"]. *)
Record Performance := mkPerformance {
  has_mark : bool;
  has_measure : bool;
  marks : list string;
  measures : list (string * string * string);
  navigation : list PerfEntry;
}.

(** Calls into the mapping library, in the vocabulary of [initializeMap]. *)
Inductive LeafletCall :=
| call_map (container : string)
| call_setView (lat lng : float) (zoom : Z)
| call_tileLayer (url attribution : string) (maxZoom : Z)
| call_tileLayer_addTo
| call_marker (lat lng : float)
| call_marker_addTo
| call_bindPopup (content : string)
| call_openPopup.

(** The mapping library is third-party code: all the script can observe of a
    call is whether it returns or throws.  A library is any function from
    the calls made so far and the current call to that outcome ([None]: the
    call returns). What the library draws inside the map container is not
    part of the model. *)
Definition Leaflet := list LeafletCall → LeafletCall → option JsError.

(** ** The browser state *)

Record World := mkWorld {
  readyState : ReadyState;
  hidden : bool;                          (* document.hidden *)
  document : Document;
  body_overflow : string;                 (* document.body.style.overflow *)
  listeners : list Listener;              (* in registration order *)
  timers : list (Callback * Z);           (* pending setTimeout calls *)
  console : list ConsoleEntry;
  uncaught : list JsError;                (* errors reported by the event loop *)
  performance : option Performance;       (* window.performance *)
  L : option Leaflet;                     (* None: typeof L === "undefined" *)
  leaflet_calls : list LeafletCall;
  location_href : string;                 (* window.location.href *)
}.

Definition set_document (f : Document → Document) (w : World) : World :=
  mkWorld (readyState w) (hidden w) (f (document w)) (body_overflow w)
    (listeners w) (timers w) (console w) (uncaught w) (performance w) (L w)
    (leaflet_calls w) (location_href w).

Definition set_body_overflow (v : string) (w : World) : World :=
  mkWorld (readyState w) (hidden w) (document w) v
    (listeners w) (timers w) (console w) (uncaught w) (performance w) (L w)
    (leaflet_calls w) (location_href w).

Definition set_listeners (f : list Listener → list Listener) (w : World) : World :=
  mkWorld (readyState w) (hidden w) (document w) (body_overflow w)
    (f (listeners w)) (timers w) (console w) (uncaught w) (performance w) (L w)
    (leaflet_calls w) (location_href w).

Definition set_timers (f : list (Callback * Z) → list (Callback * Z)) (w : World) : World :=
  mkWorld (readyState w) (hidden w) (document w) (body_overflow w)
    (listeners w) (f (timers w)) (console w) (uncaught w) (performance w) (L w)
    (leaflet_calls w) (location_href w).

Definition set_console (f : list ConsoleEntry → list ConsoleEntry) (w : World) : World :=
  mkWorld (readyState w) (hidden w) (document w) (body_overflow w)
    (listeners w) (timers w) (f (console w)) (uncaught w) (performance w) (L w)
    (leaflet_calls w) (location_href w).

Definition set_uncaught (f : list JsError → list JsError) (w : World) : World :=
  mkWorld (readyState w) (hidden w) (document w) (body_overflow w)
    (listeners w) (timers w) (console w) (f (uncaught w)) (performance w) (L w)
    (leaflet_calls w) (location_href w).

Definition set_performance (p : option Performance) (w : World) : World :=
  mkWorld (readyState w) (hidden w) (document w) (body_overflow w)
    (listeners w) (timers w) (console w) (uncaught w) p (L w)
    (leaflet_calls w) (location_href w).

Definition set_leaflet_calls (f : list LeafletCall → list LeafletCall) (w : World) : World :=
  mkWorld (readyState w) (hidden w) (document w) (body_overflow w)
    (listeners w) (timers w) (console w) (uncaught w) (performance w) (L w)
    (f (leaflet_calls w)) (location_href w).

Definition set_location_href (v : string) (w : World) : World :=
  mkWorld (readyState w) (hidden w) (document w) (body_overflow w)
    (listeners w) (timers w) (console w) (uncaught w) (performance w) (L w)
    (leaflet_calls w) v.

Definition set_readyState (r : ReadyState) (w : World) : World :=
  mkWorld r (hidden w) (document w) (body_overflow w)
    (listeners w) (timers w) (console w) (uncaught w) (performance w) (L w)
    (leaflet_calls w) (location_href w).

Definition set_hidden (h : bool) (w : World) : World :=
  mkWorld (readyState w) h (document w) (body_overflow w)
    (listeners w) (timers w) (console w) (uncaught w) (performance w) (L w)
    (leaflet_calls w) (location_href w).

(** ** The monad of script computations

    A computation runs in a world and either completes normally with a value
    or throws; in both cases the writes made so far stay. *)

Inductive Completion (A : Type) :=
| Normal (a : A)
| Throw (e : JsError).
Arguments Normal {A} a.
Arguments Throw {A} e.

Definition JS (A : Type) : Type := World → Completion A * World.

#[export] Instance JS_ret : MRet JS := λ A a w, (Normal a, w).

#[export] Instance JS_bind : MBind JS := λ A B f m w,
  match m w with
  | (Normal a, w') => f a w'
  | (Throw e, w') => (Throw e, w')
  end.

Definition throw {A} (e : JsError) : JS A := λ w, (Throw e, w).

Definition gets {A} (f : World → A) : JS A := λ w, (Normal (f w), w).

Definition modify (f : World → World) : JS unit := λ w, (Normal tt, f w).

(** [try { body } catch (e) { handler e }]. *)
Definition try_catch (body : JS unit) (handler : JsError → JS unit) : JS unit :=
  λ w, match body w with
       | (Normal tt, w') => (Normal tt, w')
       | (Throw e, w') => handler e w'
       end.

(** Member access on a reference that may be [null]. *)
Definition deref {A} (name : string) (r : option A) : JS A :=
  match r with
  | Some x => mret x
  | None => throw (TypeError (name +:+ " is null"))
  end.

(** ** Host operations *)

(** [document.getElementById(id)]: the first element, in tree order, with
    that id. *)
Definition getElementById (id : string) (d : Document) : option nat :=
  fst <$> list_find (λ e, el_id e = Some id) d.

(** [document.querySelector("." + c)]. *)
Definition querySelector_class (c : string) (d : Document) : option nat :=
  fst <$> list_find (λ e, c ∈ classList e) d.

#[global] Arguments getElementById : simpl never.
#[global] Arguments querySelector_class : simpl never.

Definition classList_contains (c : string) (i : nat) (d : Document) : bool :=
  match d !! i with
  | Some e => bool_decide (c ∈ classList e)
  | None => false
  end.

(** [classList.toggle(c)] and [classList.remove(c)] on one element. *)
Definition toggle_token (c : string) (e : Element) : Element :=
  set_classList
    (if decide (c ∈ classList e) then classList e ∖ {[c]} else classList e ∪ {[c]})
    e.

Definition remove_token (c : string) (e : Element) : Element :=
  set_classList (classList e ∖ {[c]}) e.

Definition classList_toggle (c : string) (i : nat) (d : Document) : Document :=
  alter (toggle_token c) i d.

Definition classList_remove (c : string) (i : nat) (d : Document) : Document :=
  alter (remove_token c) i d.

(** The element and its ancestors, nearest first.  The walk is bounded by
    the size of the document, which is enough for any tree. *)
Fixpoint ancestors_from (fuel : nat) (d : Document) (i : nat) : list nat :=
  match fuel with
  | O => []
  | S fuel' =>
      match d !! i with
      | None => []
      | Some e =>
          i :: match parentElement e with
               | None => []
               | Some p => ancestors_from fuel' d p
               end
      end
  end.

Definition inclusive_ancestors (d : Document) (i : nat) : list nat :=
  ancestors_from (length d) d i.

Definition has_class (d : Document) (c : string) (i : nat) : bool :=
  classList_contains c i d.

(** The selector [".mobile-nav a, .mobile-auth a"]: an [a] element below an
    element of class [mobile-nav] or of class [mobile-auth]. *)
Definition matches_nav_link (d : Document) (i : nat) : bool :=
  match d !! i with
  | None => false
  | Some e =>
      bool_decide (tagName e = "a") &&
      existsb (λ j, has_class d "mobile-nav" j || has_class d "mobile-auth" j)
              (tail (inclusive_ancestors d i))
  end.

(** [el.closest(".mobile-nav a, .mobile-auth a")]. *)
Definition closest_nav_link (d : Document) (i : nat) : option nat :=
  snd <$> list_find (λ j, matches_nav_link d j = true) (inclusive_ancestors d i).

Definition addEventListener (t : EventTarget) (type : string) (cb : Callback)
    (once : bool) : JS unit :=
  modify (set_listeners (λ ls, ls ++ [mkListener t type cb once])).

Definition setTimeout (cb : Callback) (delay : Z) : JS unit :=
  modify (set_timers (λ ts, ts ++ [(cb, delay)])).

(** ** Mobile menu (lines 7-40) *)

Definition toggleMenu (menuToggle mobileSidebar : nat) : JS unit :=
  modify (set_document (classList_toggle "active" menuToggle)) ;;
  modify (set_document (classList_toggle "active" mobileSidebar)) ;;
  active ← gets (λ w, classList_contains "active" mobileSidebar (document w)) ;
  modify (set_body_overflow (if active : bool then "hidden" else "auto")).

Definition closeMenu (menuToggle mobileSidebar : nat) : JS unit :=
  modify (set_document (classList_remove "active" menuToggle)) ;;
  modify (set_document (classList_remove "active" mobileSidebar)) ;;
  modify (set_body_overflow "auto").

(** The delegated listener of lines 32-39; [target] is [e.target]. *)
Definition delegatedClick (menuToggle mobileSidebar : nat) (target : EventTarget)
    : JS unit :=
  match target with
  | TElement t =>
      d ← gets document ;
      (if closest_nav_link d t is Some _ then closeMenu menuToggle mobileSidebar
       else mret tt) ;;
      (if decide (t = mobileSidebar) then closeMenu menuToggle mobileSidebar
       else mret tt)
  | _ => throw (TypeError "e.target.closest is not a function")
  end.

Definition initializeMenu : JS unit :=
  d ← gets document ;
  let menuToggle := getElementById "menuToggle" d in
  let mobileSidebar := getElementById "mobileSidebar" d in
  let closeBtn := getElementById "closeBtn" d in
  match menuToggle, mobileSidebar with
  | Some mt, Some ms =>
      addEventListener (TElement mt) "click" (toggleMenu_fn mt ms) false ;;
      cb ← deref "closeBtn" closeBtn ;
      addEventListener (TElement cb) "click" (closeMenu_fn mt ms) false ;;
      addEventListener TDocument "click" (delegatedClick_fn mt ms) false
  | _, _ => mret tt
  end.

(** ** Map (lines 43-58) *)

(** One call into the library: it is recorded, and it returns or throws as
    the library decides. *)
Definition leaflet_call (c : LeafletCall) : JS unit :=
  lib ← gets L ;
  match lib with
  | None => throw (ReferenceError "L is not defined")
  | Some lib =>
      history ← gets leaflet_calls ;
      modify (set_leaflet_calls (λ cs, cs ++ [c])) ;;
      match lib history c with
      | None => mret tt
      | Some e => throw e
      end
  end.

(** The body of the [try] block, lines 47-54. *)
Definition buildMap : JS unit :=
  leaflet_call (call_map "map") ;;
  leaflet_call (call_setView 25.6156%float 85.1152%float 14) ;;
  leaflet_call (call_tileLayer "https://{s}.tile.openstreetmap.org/{z}/{x}/{y}.png"
                               "&copy; OpenStreetMap contributors" 19) ;;
  leaflet_call call_tileLayer_addTo ;;
  leaflet_call (call_marker 25.6156%float 85.1152%float) ;;
  leaflet_call call_marker_addTo ;;
  leaflet_call (call_bindPopup "New Report: Water Leakage") ;;
  leaflet_call call_openPopup.

Definition console_warn_map_error (e : JsError) : JS unit :=
  modify (set_console (λ c, c ++ [console_warn "Map initialization error:" e])).

Definition initializeMap : JS unit :=
  lib ← gets L ;
  d ← gets document ;
  match lib, getElementById "map" d with
  | Some _, Some _ => try_catch buildMap console_warn_map_error
  | _, _ => mret tt
  end.

(** ** Deferred initialization (lines 61-76) *)

(** The function passed for [DOMContentLoaded], lines 62-72. *)
Definition onDOMContentLoaded : JS unit :=
  initializeMenu ;;
  h ← gets hidden ;
  if h : bool
  then addEventListener TDocument "visibilitychange" initializeMap_fn true
  else setTimeout initializeMap_fn 500.

Definition deferInit : JS unit :=
  rs ← gets readyState ;
  if decide (rs = Loading)
  then addEventListener TDocument "DOMContentLoaded" onDOMContentLoaded_fn false
  else (initializeMenu ;; setTimeout initializeMap_fn 500).

(** ** Performance monitoring (lines 2-4 and 79-101) *)

Definition performance_mark (name : string) : JS unit :=
  p ← gets performance ;
  match p with
  | None => throw (ReferenceError "performance is not defined")
  | Some p =>
      if has_mark p
      then modify (set_performance
                     (Some (mkPerformance (has_mark p) (has_measure p)
                              (marks p ++ [name]) (measures p) (navigation p))))
      else throw (TypeError "performance.mark is not a function")
  end.

Definition performance_measure (name from to : string) : JS unit :=
  p ← gets performance ;
  match p with
  | None => throw (ReferenceError "performance is not defined")
  | Some p =>
      if has_measure p
      then
        if bool_decide (from ∈ marks p) && bool_decide (to ∈ marks p)
        then modify (set_performance
                       (Some (mkPerformance (has_mark p) (has_measure p)
                                (marks p) (measures p ++ [(name, from, to)])
                                (navigation p))))
        else throw (SyntaxError "The mark does not exist")
      else throw (TypeError "performance.measure is not a function")
  end.

(** [performance.getEntriesByType("navigation")[0]]. *)
Definition first_navigation_entry : JS (option PerfEntry) :=
  p ← gets performance ;
  match p with
  | None => throw (ReferenceError "performance is not defined")
  | Some p => mret (navigation p !! 0%nat)
  end.

(** Lines 2-4. *)
Definition markAppStart : JS unit :=
  p ← gets performance ;
  match p with
  | Some p => if has_mark p then performance_mark "app-start" else mret tt
  | None => mret tt
  end.

(** Reading a property of an entry gives [undefined] when it is missing;
    [-] converts its operands to numbers, and [undefined] to [NaN]. *)
Definition ToNumber (v : option float) : float := default nan v.

Definition js_sub (a b : option float) : float :=
  PrimFloat.sub (ToNumber a) (ToNumber b).

(** The object literal of lines 91-98. *)
Definition performanceMetrics (perfData : PerfEntry) : list (string * float) :=
  [ ("DNS", js_sub (perfData !! "domainLookupEnd") (perfData !! "domainLookupStart"));
    ("TCP", js_sub (perfData !! "connectEnd") (perfData !! "connectStart"));
    ("Request", js_sub (perfData !! "responseStart") (perfData !! "requestStart"));
    ("Response", js_sub (perfData !! "responseEnd") (perfData !! "responseStart"));
    ("DOM Processing", js_sub (perfData !! "domComplete") (perfData !! "domLoading"));
    ("Total Load Time", js_sub (perfData !! "loadEventEnd") (perfData !! "fetchStart")) ].

(** The [load] listener, lines 84-100. *)
Definition onLoad : JS unit :=
  performance_mark "app-end" ;;
  performance_measure "app-duration" "app-start" "app-end" ;;
  perfData ← first_navigation_entry ;
  match perfData with
  | Some perfData =>
      modify (set_console
                (λ c, c ++ [console_log "Performance Metrics:"
                              (performanceMetrics perfData)]))
  | None => mret tt
  end.

(** Lines 79-101. *)
Definition wireLoadReport : JS unit :=
  p ← gets performance ;
  match p with
  | Some p =>
      if has_mark p && has_measure p
      then addEventListener TWindow "load" onLoad_fn false
      else mret tt
  | None => mret tt
  end.

(** ** Report button (lines 106-110) *)

Definition onReportClick : JS unit :=
  modify (set_location_href "/html/report.html").

Definition wireReportBtn : JS unit :=
  d ← gets document ;
  let reportBtn := querySelector_class "issue-report-btn" d in
  btn ← deref "reportBtn" reportBtn ;
  addEventListener (TElement btn) "click" onReportClick_fn false.

(** ** The script, top to bottom *)

Definition script : JS unit :=
  markAppStart ;; deferInit ;; wireLoadReport ;; wireReportBtn.

(** The script without its last statement group (lines 1-101). *)
Definition script_before_reportBtn : JS unit :=
  markAppStart ;; deferInit ;; wireLoadReport.

(** ** The event loop *)

Record Event := mkEvent { ev_type : string; ev_target : EventTarget }.

(** Calling a function value of the script. *)
Definition call (cb : Callback) (e : Event) : JS unit :=
  match cb with
  | toggleMenu_fn mt ms => toggleMenu mt ms
  | closeMenu_fn mt ms => closeMenu mt ms
  | delegatedClick_fn mt ms => delegatedClick mt ms (ev_target e)
  | initializeMap_fn => initializeMap
  | onDOMContentLoaded_fn => onDOMContentLoaded
  | onLoad_fn => onLoad
  | onReportClick_fn => onReportClick
  end.

(** A task of the event loop: an exception that reaches the loop is
    reported and the loop goes on. *)
Definition run_task (c : JS unit) (w : World) : World :=
  match c w with
  | (Normal _, w') => w'
  | (Throw e, w') => set_uncaught (λ u, u ++ [e]) w'
  end.

Fixpoint remove_first (l : Listener) (ls : list Listener) : list Listener :=
  match ls with
  | [] => []
  | l' :: ls' => if decide (l = l') then ls' else l' :: remove_first l ls'
  end.

(** A [once] listener is removed before its callback runs. *)
Definition invoke (e : Event) (w : World) (l : Listener) : World :=
  run_task (call (l_callback l) e)
           (if l_once l then set_listeners (remove_first l) w else w).

Definition listeners_for (t : EventTarget) (type : string) (w : World)
    : list Listener :=
  filter (λ l, l_target l = t ∧ l_type l = type) (listeners w).

Definition fire_at (e : Event) (w : World) (t : EventTarget) : World :=
  foldl (invoke e) w (listeners_for t (ev_type e) w).

(** Target first, then its ancestors, the document and the window. *)
Definition propagation_path (d : Document) (t : EventTarget) : list EventTarget :=
  match t with
  | TElement i => (TElement <$> inclusive_ancestors d i) ++ [TDocument; TWindow]
  | TDocument => [TDocument; TWindow]
  | TWindow => [TWindow]
  end.

Definition dispatch (e : Event) (w : World) : World :=
  foldl (fire_at e) w (propagation_path (document w) (ev_target e)).

(** What can happen to the page after the script has been evaluated.
    [DOMContentLoaded] and [load] happen once each, in this order. *)
Inductive PageEvent :=
| DOMContentLoaded
| Load
| VisibilityChange
| Timeout (k : nat)
| Click (target : nat).

Definition step (w : World) (ev : PageEvent) : World :=
  match ev with
  | DOMContentLoaded =>
      if decide (readyState w = Loading)
      then dispatch (mkEvent "DOMContentLoaded" TDocument)
                    (set_readyState Interactive w)
      else w
  | Load =>
      if decide (readyState w = Interactive)
      then dispatch (mkEvent "load" TWindow) (set_readyState Complete w)
      else w
  | VisibilityChange =>
      dispatch (mkEvent "visibilitychange" TDocument)
               (set_hidden (negb (hidden w)) w)
  | Timeout k =>
      match timers w !! k with
      | Some (cb, _) =>
          run_task (call cb (mkEvent "timeout" TWindow)) (set_timers (delete k) w)
      | None => w
      end
  | Click t =>
      match document w !! t with
      | Some _ => dispatch (mkEvent "click" (TElement t)) w
      | None => w
      end
  end.

Definition run (w : World) (evs : list PageEvent) : World := foldl step w evs.

(** Evaluating the script is a task like any other. *)
Definition load_page (w : World) : World := run_task script w.

(** The page once its deferred initialization has run. *)
Definition page_ready (w : World) : World := step (load_page w) DOMContentLoaded.

(** ** Observations *)

Definition drawer_open (mobileSidebar : nat) (w : World) : bool :=
  classList_contains "active" mobileSidebar (document w).

Definition scroll_locked (w : World) : bool :=
  bool_decide (body_overflow w = "hidden").

(** Listeners and timers that will call [initializeMap]. *)
Definition map_listeners (w : World) : list Listener :=
  filter (λ l, l_callback l = initializeMap_fn) (listeners w).

Definition map_timers (w : World) : list (Callback * Z) :=
  filter (λ t, t.1 = initializeMap_fn) (timers w).

(** Whether calling the function value can reach [closeMenu]. *)
Definition dismisses (cb : Callback) : bool :=
  match cb with
  | closeMenu_fn _ _ | delegatedClick_fn _ _ => true
  | _ => false
  end.

Definition dismissal_listeners (w : World) : list Listener :=
  filter (λ l, dismisses (l_callback l) = true) (listeners w).

(** ** Vocabulary of the drawer properties *)

(** The scroll lock is on exactly when the drawer is open. *)
Definition mirrors (mobileSidebar : nat) (w : World) : Prop :=
  scroll_locked w = drawer_open mobileSidebar w.

(** Two elements that differ at most in whether they carry the class
    [active]; two documents that are so element by element. The handlers of
    the drawer only ever move a document within this relation. *)
Definition elem_sim (e e' : Element) : Prop :=
  tagName e = tagName e' ∧ el_id e = el_id e' ∧
  parentElement e = parentElement e' ∧
  ∀ c, c ≠ "active" → c ∈ classList e ↔ c ∈ classList e'.

Definition doc_sim (d d' : Document) : Prop := Forall2 elem_sim d d'.

(** The four drawer actions, as clicks on an element [t] of the document:
    on the menu trigger or inside it, on the close trigger or inside it, on
    or inside a navigation link, on the drawer's own background. *)
Definition drawer_action (mt ms cb : nat) (d : Document) (t : nat) : Prop :=
  mt ∈ inclusive_ancestors d t ∨ cb ∈ inclusive_ancestors d t ∨
  is_Some (closest_nav_link d t) ∨ t = ms.

#[export] Instance drawer_action_dec (mt ms cb : nat) (d : Document) (t : nat) :
  Decision (drawer_action mt ms cb d t).
Proof. unfold drawer_action. apply _. Defined.

(** The three listeners of [initializeMenu], lines 28-39. *)
Definition drawer_listeners (mt ms cb : nat) : list Listener :=
  [ mkListener (TElement mt) "click" (toggleMenu_fn mt ms) false;
    mkListener (TElement cb) "click" (closeMenu_fn mt ms) false;
    mkListener TDocument "click" (delegatedClick_fn mt ms) false ].

(** Listeners the rest of the script may add: the [load] listener of the
    timing report and the click listener of the report button. *)
Definition other_listener (l : Listener) : Prop :=
  l_type l = "load" ∨
  (l_type l = "click" ∧ l_once l = false ∧ l_callback l = onReportClick_fn).

(** The click listeners of a page whose drawer is wired: the three of
    [initializeMenu] are there, and any other is the report button's. *)
Definition click_callback (mt ms : nat) (cb : Callback) : Prop :=
  cb = toggleMenu_fn mt ms ∨ cb = closeMenu_fn mt ms ∨
  cb = delegatedClick_fn mt ms ∨ cb = onReportClick_fn.

Definition click_listener (mt ms : nat) (l : Listener) : Prop :=
  l_once l = false ∧ click_callback mt ms (l_callback l).

Record wired (mt ms cb : nat) (ls : list Listener) : Prop := {
  wired_clicks : ∀ l, l ∈ ls → l_type l = "click" → click_listener mt ms l;
  wired_toggle : mkListener (TElement mt) "click" (toggleMenu_fn mt ms) false ∈ ls;
  wired_close : mkListener (TElement cb) "click" (closeMenu_fn mt ms) false ∈ ls;
  wired_delegated : mkListener TDocument "click" (delegatedClick_fn mt ms) false ∈ ls;
}.

(** A call that leaves the scroll lock mirroring the drawer, whatever the
    state before; [d0] is the document the script found. *)
Definition establishes (d0 : Document) (mt ms : nat) (e : Event)
    (cb : Callback) : Prop :=
  cb = toggleMenu_fn mt ms ∨ cb = closeMenu_fn mt ms ∨
  (cb = delegatedClick_fn mt ms ∧
   ∃ t, ev_target e = TElement t ∧
        (is_Some (closest_nav_link d0 t) ∨ t = ms)).

(** What every step of a click dispatch satisfies: listeners untouched,
    document changed in [active] only, invariant kept, and established
    whenever [E] holds. *)
Definition click_step (d0 : Document) (ms : nat) (E : Prop) (v v' : World)
    : Prop :=
  listeners v' = listeners v ∧ doc_sim d0 (document v') ∧
  (mirrors ms v → mirrors ms v') ∧ (E → mirrors ms v').

(** C2 as it is stated: every listener through which the drawer can be
    dismissed sits on the document root, and there is one of them. *)
Definition single_delegated_dismissal (w : World) : Prop :=
  Forall (λ l, l_target l = TDocument) (dismissal_listeners (initializeMenu w).2) ∧
  length (dismissal_listeners (initializeMenu w).2) = 1%nat.

(** ** Vocabulary of the further properties *)

(** The eight library calls of lines 47-54, in program order. *)
Definition map_calls : list LeafletCall :=
  [ call_map "map";
    call_setView 25.6156%float 85.1152%float 14;
    call_tileLayer "https://{s}.tile.openstreetmap.org/{z}/{x}/{y}.png"
                   "&copy; OpenStreetMap contributors" 19;
    call_tileLayer_addTo;
    call_marker 25.6156%float 85.1152%float;
    call_marker_addTo;
    call_bindPopup "New Report: Water Leakage";
    call_openPopup ].

(** A list of library calls made one after the other. *)
Definition leaflet_sequence (cs : list LeafletCall) : JS unit :=
  foldr (λ c k, leaflet_call c ;; k) (mret tt) cs.

(** The first call of [cs] that the library answers by throwing, with what
    it throws, when the calls before it have been made on top of [history]. *)
Fixpoint first_throw (lib : Leaflet) (history : list LeafletCall)
    (cs : list LeafletCall) : option (nat * JsError) :=
  match cs with
  | [] => None
  | c :: cs' =>
      match lib history c with
      | Some e => Some (O, e)
      | None =>
          match first_throw lib (history ++ [c]) cs' with
          | Some (n, e) => Some (S n, e)
          | None => None
          end
      end
  end.

(** How many times the map constructor [L.map] has been called. *)
Definition is_call_map (c : LeafletCall) : bool :=
  match c with call_map _ => true | _ => false end.

Definition map_attempts (w : World) : nat :=
  length (filter (λ c, is_call_map c = true) (leaflet_calls w)).

(** The listeners the top-level statements register. *)
Definition ready_listener : Listener :=
  mkListener TDocument "DOMContentLoaded" onDOMContentLoaded_fn false.

Definition visibility_listener : Listener :=
  mkListener TDocument "visibilitychange" initializeMap_fn true.

Definition load_listener : Listener :=
  mkListener TWindow "load" onLoad_fn false.

Definition report_listener (btn : nat) : Listener :=
  mkListener (TElement btn) "click" onReportClick_fn false.

(** Callbacks that register nothing, schedule nothing and build no map. *)
Definition plain_callback (cb : Callback) : Prop :=
  match cb with
  | initializeMap_fn | onDOMContentLoaded_fn => False
  | _ => True
  end.

(** A page on which only this script has registered listeners: each is the
    [DOMContentLoaded] listener, the one-shot visibility listener, or a
    permanent listener for another event with a plain callback. *)
Definition script_listener (l : Listener) : Prop :=
  l = ready_listener ∨ l = visibility_listener ∨
  (l_once l = false ∧ plain_callback (l_callback l) ∧
   l_type l ≠ "DOMContentLoaded" ∧ l_type l ≠ "visibilitychange").

(** Everything that may still lead to a map being built, plus the maps
    already attempted. *)
Definition map_budget (w : World) : nat :=
  (map_attempts w + length (map_listeners w) + length (timers w) +
   (if decide (readyState w = Loading)
    then length (filter (λ l, l = ready_listener) (listeners w))
    else 0))%nat.

Record one_map (w : World) : Prop := {
  one_map_listeners : Forall script_listener (listeners w);
  one_map_timers : Forall (λ t, t = (initializeMap_fn, 500)) (timers w);
  one_map_budget : (map_budget w ≤ 1)%nat;
}.

(** The timing API is there and the start mark has been recorded. *)
Definition timing_ready (w : World) : Prop :=
  ∃ p, performance w = Some p ∧ has_mark p = true ∧ has_measure p = true ∧
       "app-start" ∈ marks p.

Definition is_console_log (c : ConsoleEntry) : bool :=
  match c with console_log _ _ => true | _ => false end.

(** What the drawer handlers write: class lists, within [doc_sim], and the
    overflow. *)
Definition drawer_write (v v' : World) : Prop :=
  ∃ d' ov, v' = set_body_overflow ov (set_document (λ _, d') v) ∧
           ∀ d0, doc_sim d0 (document v) → doc_sim d0 d'.

(** What one run of the callback [cb] by the event loop can do to the
    browser state, and what it cannot. *)
Record callback_effect (cb : Callback) (v v' : World) : Prop := {
  eff_readyState : readyState v' = readyState v;
  eff_hidden : hidden v' = hidden v;
  eff_L : L v' = L v;
  eff_document : ∀ d0, doc_sim d0 (document v) → doc_sim d0 (document v');
  eff_location : location_href v' = location_href v ∨
                 location_href v' = "/html/report.html";
  eff_registered :
    ∃ added ts,
      listeners v' = listeners v ++ added ∧ timers v' = timers v ++ ts ∧
      Forall script_listener added ∧
      Forall (λ l, l_callback l ≠ onLoad_fn ∧ l ≠ ready_listener) added ∧
      Forall (λ t, t = (initializeMap_fn, 500)) ts ∧
      (length (filter (λ l, l = visibility_listener) added) + length ts ≤ 1)%nat ∧
      (cb ≠ onDOMContentLoaded_fn → added = [] ∧ ts = []);
  eff_calls :
    ∃ k, leaflet_calls v' = leaflet_calls v ++ take k map_calls ∧
         (cb ≠ initializeMap_fn → k = 0%nat);
  eff_console :
    cb ≠ onLoad_fn →
    filter (λ c, is_console_log c = true) (console v')
    = filter (λ c, is_console_log c = true) (console v);
}.

(** The drawer can be wired without a fault: it is absent, or its close
    button is there. *)
Definition menu_wirable (d : Document) : Prop :=
  getElementById "menuToggle" d = None ∨
  getElementById "mobileSidebar" d = None ∨
  is_Some (getElementById "closeBtn" d).

(** The click listeners of the page are the script's own: the three of the
    drawer, and the report button's. *)
Definition script_click_listeners (mt ms cb : nat) (ls : list Listener) : Prop :=
  ∀ l, l ∈ ls → l_type l = "click" →
       l ∈ drawer_listeners mt ms cb ∨ ∃ b, l = report_listener b.

(** ** A sample page *)

Module Sample.

Definition el (tag : string) (id : option string) (cls : list string)
    (parent : option nat) : Element :=
  mkElement tag id (list_to_set cls) parent.

(** body > button#menuToggle > i, aside#mobileSidebar > (button#closeBtn,
    nav.mobile-nav > (a, a)), div#map, button.issue-report-btn *)
Definition page : Document :=
  [ el "body" None [] None;
    el "button" (Some "menuToggle") ["hamburger"] (Some 0%nat);
    el "i" None ["ri-menu-line"] (Some 1%nat);
    el "aside" (Some "mobileSidebar") ["mobile-sidebar"] (Some 0%nat);
    el "button" (Some "closeBtn") [] (Some 3%nat);
    el "nav" None ["mobile-nav"] (Some 3%nat);
    el "a" None [] (Some 5%nat);
    el "a" None [] (Some 5%nat);
    el "div" (Some "map") [] (Some 0%nat);
    el "button" None ["issue-report-btn"] (Some 0%nat) ].

Definition timing : PerfEntry :=
  list_to_map
    [ ("fetchStart", 2%float); ("domainLookupStart", 5%float);
      ("domainLookupEnd", 9%float); ("connectStart", 9%float);
      ("connectEnd", 21.5%float); ("requestStart", 22%float);
      ("responseStart", 40%float); ("responseEnd", 47.25%float);
      ("domLoading", 48%float); ("domComplete", 300%float);
      ("loadEventEnd", 310.5%float) ].

Definition perf : Performance := mkPerformance true true [] [] [timing].

(** A library whose every call returns. *)
Definition leaflet_ok : Leaflet := λ _ _, None.

(** A library whose tile layer constructor throws. *)
Definition leaflet_bad_tiles : Leaflet := λ _ c,
  match c with
  | call_tileLayer _ _ _ => Some (LibraryError "tiles")
  | _ => None
  end.

Definition world (rs : ReadyState) (h : bool) (d : Document)
    (lib : option Leaflet) : World :=
  mkWorld rs h d "" [] [] [] [] (Some perf) lib [] "/index.html".

(** The page without its close button. *)
Definition page_no_closeBtn : Document :=
  [ el "body" None [] None;
    el "button" (Some "menuToggle") [] (Some 0%nat);
    el "aside" (Some "mobileSidebar") [] (Some 0%nat);
    el "div" (Some "map") [] (Some 0%nat);
    el "button" None ["issue-report-btn"] (Some 0%nat) ].

(** The page without the report button. *)
Definition page_no_reportBtn : Document := take 9 page.

(** A page without the drawer. *)
Definition page_no_drawer : Document :=
  [ el "body" None [] None;
    el "button" (Some "closeBtn") [] (Some 0%nat);
    el "div" (Some "map") [] (Some 0%nat) ].

End Sample.

(** * Properties *)

(** Unfolding the monad. *)
Ltac js_unfold :=
  unfold addEventListener, setTimeout, deref in *;
  unfold mbind, JS_bind, mret, JS_ret, gets, modify, throw in *.

(** ** The guards *)

(** C6: when the menu trigger or the drawer is missing, [initializeMenu]
    completes normally and leaves the whole browser state, its listener
    lists included, as it found it. *)
Theorem initializeMenu_inert (w : World) :
  getElementById "menuToggle" (document w) = None ∨
  getElementById "mobileSidebar" (document w) = None →
  initializeMenu w = (Normal tt, w).
Proof.
  intros H. unfold initializeMenu. js_unfold.
  destruct H as [-> | ->]; [done|].
  by destruct (getElementById "menuToggle" (document w)).
Qed.

Lemma initializeMenu_inert_witness :
  initializeMenu (Sample.world Complete false Sample.page_no_drawer None)
  = (Normal tt, Sample.world Complete false Sample.page_no_drawer None).
Proof. apply initializeMenu_inert. left. reflexivity. Defined.

(** C3: when the library global is undefined or the container is missing,
    [initializeMap] completes normally and changes nothing at all. *)
Theorem initializeMap_guard (w : World) :
  L w = None ∨ getElementById "map" (document w) = None →
  initializeMap w = (Normal tt, w).
Proof.
  intros H. unfold initializeMap. js_unfold.
  destruct H as [-> | ->]; [done|].
  by destruct (L w).
Qed.

Lemma initializeMap_guard_witness :
  initializeMap (Sample.world Complete false Sample.page None)
  = (Normal tt, Sample.world Complete false Sample.page None).
Proof. apply initializeMap_guard. left. reflexivity. Defined.

(** C10: with the menu trigger and the drawer present and the close button
    missing, [initializeMenu] throws a TypeError, and by then the toggle
    listener (and nothing else) has been attached. *)
Theorem initializeMenu_closeBtn_absent (w : World) (mt ms : nat) :
  getElementById "menuToggle" (document w) = Some mt →
  getElementById "mobileSidebar" (document w) = Some ms →
  getElementById "closeBtn" (document w) = None →
  initializeMenu w =
    (Throw (TypeError "closeBtn is null"),
     set_listeners
       (λ ls, ls ++ [mkListener (TElement mt) "click" (toggleMenu_fn mt ms) false])
       w).
Proof.
  intros Hmt Hms Hcb. unfold initializeMenu. js_unfold.
  by rewrite Hmt, Hms, Hcb.
Qed.

Lemma initializeMenu_closeBtn_absent_witness :
  initializeMenu (Sample.world Complete false Sample.page_no_closeBtn None) =
    (Throw (TypeError "closeBtn is null"),
     set_listeners
       (λ ls, ls ++ [mkListener (TElement 1) "click" (toggleMenu_fn 1 2) false])
       (Sample.world Complete false Sample.page_no_closeBtn None)).
Proof. apply initializeMenu_closeBtn_absent; reflexivity. Defined.

(** ** Map construction failures *)

Lemma try_catch_warn_normal (body : JS unit) (w : World) :
  (try_catch body console_warn_map_error w).1 = Normal tt.
Proof.
  unfold try_catch, console_warn_map_error. js_unfold.
  by destruct (body w) as [[[]|e] w'].
Qed.

(** A call into the library throws only what the library throws. *)
Lemma leaflet_call_outcome (c : LeafletCall) (w : World) (lib : Leaflet) :
  L w = Some lib →
  leaflet_call c w =
    (match lib (leaflet_calls w) c with
     | None => Normal tt
     | Some e => Throw e
     end,
     set_leaflet_calls (λ cs, cs ++ [c]) w).
Proof.
  intros Hlib. unfold leaflet_call. js_unfold. rewrite Hlib.
  by destruct (lib (leaflet_calls w) c).
Qed.

(** Every exception that leaves the construction of lines 47-54 was thrown
    by one of its eight library calls. *)
Lemma buildMap_throws_from_library (w w' : World) (lib : Leaflet) (e : JsError) :
  L w = Some lib → buildMap w = (Throw e, w') →
  ∃ history c, lib history c = Some e.
Proof.
  intros Hlib. unfold buildMap.
  repeat match goal with
  | |- context [mbind _ (leaflet_call ?c) ?v] =>
      unfold mbind at 1; unfold JS_bind at 1;
      rewrite (leaflet_call_outcome c v lib) by done;
      destruct (lib (leaflet_calls v) c) eqn:?;
        [intros [= <- _]; eauto|]
  end.
  rewrite (leaflet_call_outcome _ _ lib) by done.
  destruct (lib _ call_openPopup) eqn:?; [intros [= <- _]; eauto|done].
Qed.

(** C4: [initializeMap] completes normally in every world; and when the
    construction of lines 47-54 throws [e], [initializeMap] ends in the
    state the construction had reached with one warning carrying [e]
    appended to the console. *)
Theorem initializeMap_swallows (w : World) :
  (initializeMap w).1 = Normal tt ∧
  ∀ e w', is_Some (L w) → is_Some (getElementById "map" (document w)) →
          buildMap w = (Throw e, w') →
          initializeMap w =
            (Normal tt,
             set_console
               (λ c, c ++ [console_warn "Map initialization error:" e]) w').
Proof.
  split.
  - unfold initializeMap. js_unfold.
    destruct (L w); [|done].
    destruct (getElementById "map" (document w)); [|done].
    apply try_catch_warn_normal.
  - intros e w' [lib Hlib] [m Hm] Hbody.
    unfold initializeMap. js_unfold. rewrite Hlib, Hm.
    unfold try_catch. by rewrite Hbody.
Qed.

Lemma initializeMap_swallows_witness :
  let w := Sample.world Complete false Sample.page (Some Sample.leaflet_bad_tiles) in
  initializeMap w =
    (Normal tt,
     set_console
       (λ c, c ++ [console_warn "Map initialization error:" (LibraryError "tiles")])
       (set_leaflet_calls
          (λ _, [call_map "map"; call_setView 25.6156%float 85.1152%float 14;
                 call_tileLayer "https://{s}.tile.openstreetmap.org/{z}/{x}/{y}.png"
                                "&copy; OpenStreetMap contributors" 19]) w)).
Proof.
  intros w.
  apply (proj2 (initializeMap_swallows w) (LibraryError "tiles")).
  - by eexists.
  - by eexists.
  - reflexivity.
Defined.

(** ** The timing report *)

(** C7: when the [load] listener runs with the timing API present, the
    start mark recorded and a first navigation entry whose eleven fields are
    numbers, it logs one object with exactly six properties, in this order
    and under these names, each the difference of two fields of the entry. *)
Theorem onLoad_report (w : World) (p : Performance) (perfData : PerfEntry)
    (rest : list PerfEntry)
    (domainLookupStart domainLookupEnd connectStart connectEnd requestStart
     responseStart responseEnd domLoading domComplete loadEventEnd
     fetchStart : float) :
  performance w = Some p →
  has_mark p = true → has_measure p = true → "app-start" ∈ marks p →
  navigation p = perfData :: rest →
  perfData !! "domainLookupStart" = Some domainLookupStart →
  perfData !! "domainLookupEnd" = Some domainLookupEnd →
  perfData !! "connectStart" = Some connectStart →
  perfData !! "connectEnd" = Some connectEnd →
  perfData !! "requestStart" = Some requestStart →
  perfData !! "responseStart" = Some responseStart →
  perfData !! "responseEnd" = Some responseEnd →
  perfData !! "domLoading" = Some domLoading →
  perfData !! "domComplete" = Some domComplete →
  perfData !! "loadEventEnd" = Some loadEventEnd →
  perfData !! "fetchStart" = Some fetchStart →
  ∃ w', onLoad w = (Normal tt, w') ∧
        console w' = console w ++
          [console_log "Performance Metrics:"
             [ ("DNS", domainLookupEnd - domainLookupStart);
               ("TCP", connectEnd - connectStart);
               ("Request", responseStart - requestStart);
               ("Response", responseEnd - responseStart);
               ("DOM Processing", domComplete - domLoading);
               ("Total Load Time", loadEventEnd - fetchStart) ]%float].
Proof.
  intros Hp Hmark Hmeasure Hstart Hnav H1 H2 H3 H4 H5 H6 H7 H8 H9 H10 H11.
  eexists. split.
  - unfold onLoad, performance_mark, performance_measure,
      first_navigation_entry. js_unfold.
    rewrite Hp, Hmark. cbn. rewrite Hmeasure.
    rewrite (bool_decide_eq_true_2 ("app-start" ∈ marks p ++ ["app-end"])),
            (bool_decide_eq_true_2 ("app-end" ∈ marks p ++ ["app-end"]));
      [| set_solver | set_solver].
    cbn. rewrite Hnav. cbn. reflexivity.
  - cbn. unfold performanceMetrics.
    rewrite H1, H2, H3, H4, H5, H6, H7, H8, H9, H10, H11. reflexivity.
Qed.

Lemma onLoad_report_witness :
  let w := load_page (Sample.world Complete false Sample.page None) in
  ∃ w', onLoad w = (Normal tt, w') ∧
        console w' = console w ++
          [console_log "Performance Metrics:"
             [ ("DNS", 9 - 5); ("TCP", 21.5 - 9); ("Request", 40 - 22);
               ("Response", 47.25 - 40); ("DOM Processing", 300 - 48);
               ("Total Load Time", 310.5 - 2) ]%float].
Proof.
  intros w.
  apply (onLoad_report w (mkPerformance true true ["app-start"] [] [Sample.timing])
           Sample.timing []);
    first [ reflexivity | set_solver ].
Defined.

(** A navigation entry as browsers build it has no [domLoading] field (it is
    a field of the older [performance.timing] object); the fifth property is
    then [NaN], whatever [domComplete] is. *)
Lemma sub_nan_r (x : float) : (x - nan)%float = nan.
Proof.
  apply Prim2SF_inj. rewrite sub_spec.
  change (Prim2SF nan) with S754_nan.
  by destruct (Prim2SF x) as [| | |[] ? ?].
Qed.

Lemma performanceMetrics_no_domLoading (perfData : PerfEntry) :
  perfData !! "domLoading" = None →
  performanceMetrics perfData !! 4%nat = Some ("DOM Processing", nan).
Proof.
  intros H. unfold performanceMetrics. cbn. rewrite H. unfold js_sub. cbn.
  by rewrite sub_nan_r.
Qed.

(** ** What the top-level statements leave alone *)

Lemma initializeMenu_document (w : World) :
  document (initializeMenu w).2 = document w.
Proof.
  unfold initializeMenu. js_unfold.
  destruct (getElementById "menuToggle" (document w)); [|done].
  destruct (getElementById "mobileSidebar" (document w)); [|done].
  by destruct (getElementById "closeBtn" (document w)).
Qed.

Lemma markAppStart_document (w : World) :
  document (markAppStart w).2 = document w.
Proof.
  unfold markAppStart, performance_mark. js_unfold.
  destruct (performance w) as [p|] eqn:Hp; [|done].
  destruct (has_mark p) eqn:Hm; [|done].
  by rewrite Hp, Hm.
Qed.

Lemma deferInit_document (w : World) :
  document (deferInit w).2 = document w.
Proof.
  unfold deferInit. js_unfold.
  destruct (decide (readyState w = Loading)); [done|].
  pose proof (initializeMenu_document w) as H.
  by destruct (initializeMenu w) as [[[]|e] w'].
Qed.

Lemma wireLoadReport_document (w : World) :
  document (wireLoadReport w).2 = document w.
Proof.
  unfold wireLoadReport. js_unfold.
  destruct (performance w) as [p|]; [|done].
  by destruct (has_mark p && has_measure p).
Qed.

Lemma script_before_reportBtn_document (w : World) :
  document (script_before_reportBtn w).2 = document w.
Proof.
  unfold script_before_reportBtn. js_unfold.
  pose proof (markAppStart_document w) as H1.
  destruct (markAppStart w) as [[[]|e1] w1]; [|done].
  pose proof (deferInit_document w1) as H2.
  destruct (deferInit w1) as [[[]|e2] w2]; cbn in *; [|congruence].
  pose proof (wireLoadReport_document w2) as H3.
  destruct (wireLoadReport w2) as [[[]|e3] w3]; cbn in *; congruence.
Qed.

(** ** The report button *)

(** The sample page without its report button, loaded and clicked: the
    drawer opens, the map timer is pending, the [load] listener is there,
    and the TypeError is the only error reported. *)
Example page_without_reportBtn :
  let w := page_ready (Sample.world Loading false Sample.page_no_reportBtn None) in
  uncaught w = [TypeError "reportBtn is null"] ∧
  map_timers w = [(initializeMap_fn, 500)] ∧
  mkListener TWindow "load" onLoad_fn false ∈ listeners w ∧
  drawer_open 3 (run w [Click 1%nat]) = true.
Proof. vm_compute. repeat split; set_solver. Qed.

(** ** Toggling *)

Lemma toggle_token_twice (c : string) (e : Element) :
  toggle_token c (toggle_token c e) = e.
Proof.
  destruct e as [tag id cl par]. unfold toggle_token, set_classList. cbn.
  f_equal. apply set_eq. intros x.
  destruct (decide (c ∈ cl)) as [Hin|Hout].
  - rewrite decide_False; [|set_solver].
    destruct (decide (x = c)); set_solver.
  - rewrite decide_True; [|set_solver].
    destruct (decide (x = c)); set_solver.
Qed.

Lemma classList_toggle_twice (c : string) (i : nat) (d : Document) :
  classList_toggle c i (classList_toggle c i d) = d.
Proof.
  unfold classList_toggle.
  rewrite list_alter_alter_eq. apply list_alter_id.
  intros e. apply toggle_token_twice.
Qed.

Lemma classList_toggle_commute (c : string) (i j : nat) (d : Document) :
  classList_toggle c i (classList_toggle c j d)
  = classList_toggle c j (classList_toggle c i d).
Proof.
  unfold classList_toggle. destruct (decide (i = j)) as [->|Hne]; [done|].
  by apply list_alter_alter_ne.
Qed.

(** C9: from a state in which the drawer is closed, running [toggleMenu]
    twice completes normally, leaves every class list as it was, the drawer
    closed and the scroll lock off; the only write that remains is
    [overflow = "auto"], so on a closed state whose overflow is already
    ["auto"] the two toggles are the identity. *)
Theorem toggle_twice_closed (w : World) (mt ms : nat) :
  drawer_open ms w = false →
  ∃ w2, (toggleMenu mt ms ;; toggleMenu mt ms) w = (Normal tt, w2) ∧
        w2 = set_body_overflow "auto" w ∧
        drawer_open ms w2 = false ∧ scroll_locked w2 = false ∧
        (body_overflow w = "auto" → w2 = w).
Proof.
  intros Hclosed. unfold drawer_open in Hclosed.
  assert (Hdoc : classList_toggle "active" ms
                   (classList_toggle "active" mt
                      (classList_toggle "active" ms
                         (classList_toggle "active" mt (document w))))
                 = document w).
  { rewrite (classList_toggle_commute "active" mt ms).
    by rewrite !classList_toggle_twice. }
  assert (Hrun : (toggleMenu mt ms ;; toggleMenu mt ms) w
                 = (Normal tt, set_body_overflow "auto" w)).
  { unfold toggleMenu. js_unfold. cbn. rewrite Hdoc, Hclosed.
    unfold set_body_overflow, set_document. cbn. rewrite Hdoc.
    by destruct w. }
  exists (set_body_overflow "auto" w). repeat split; [done..|].
  intros Hauto. destruct w; cbn in *. by subst.
Qed.

Lemma toggle_twice_closed_witness :
  let w := Sample.world Complete false Sample.page None in
  ∃ w2, (toggleMenu 1 3 ;; toggleMenu 1 3) w = (Normal tt, w2) ∧
        w2 = set_body_overflow "auto" w ∧
        drawer_open 3 w2 = false ∧ scroll_locked w2 = false ∧
        (body_overflow w = "auto" → w2 = w).
Proof. intros w. apply toggle_twice_closed. reflexivity. Defined.

(** The same on the loaded sample page, by two clicks on the icon inside
    the menu trigger. *)
Example click_toggle_twice :
  let w := page_ready (Sample.world Complete false Sample.page None) in
  let v := run w [Click 2%nat; Click 2%nat] in
  drawer_open 3 (run w [Click 2%nat]) = true ∧
  document v = document w ∧ drawer_open 3 v = false ∧ scroll_locked v = false.
Proof. vm_compute. done. Qed.

(** ** Closing the drawer *)

Lemma classList_contains_remove (c : string) (i : nat) (d : Document) :
  classList_contains c i (classList_remove c i d) = false.
Proof.
  unfold classList_contains, classList_remove.
  rewrite list_lookup_alter_eq. destruct (d !! i) as [e|]; [|done]. cbn.
  apply bool_decide_eq_false. set_solver.
Qed.

Lemma closeMenu_closes (mt ms : nat) (w : World) :
  ∃ w', closeMenu mt ms w = (Normal tt, w') ∧
        drawer_open ms w' = false ∧ scroll_locked w' = false.
Proof.
  eexists. split; [reflexivity|]. split; [|done].
  unfold drawer_open. cbn. apply classList_contains_remove.
Qed.

(** What [initializeMenu] does to the listener lists when all three
    elements are there. *)
Lemma initializeMenu_wires (w : World) (mt ms cb : nat) :
  getElementById "menuToggle" (document w) = Some mt →
  getElementById "mobileSidebar" (document w) = Some ms →
  getElementById "closeBtn" (document w) = Some cb →
  initializeMenu w =
    (Normal tt,
     set_listeners
       (λ ls, ls ++ [ mkListener (TElement mt) "click" (toggleMenu_fn mt ms) false;
                      mkListener (TElement cb) "click" (closeMenu_fn mt ms) false;
                      mkListener TDocument "click" (delegatedClick_fn mt ms) false ])
       w).
Proof.
  intros Hmt Hms Hcb. unfold initializeMenu. js_unfold.
  rewrite Hmt, Hms, Hcb. cbn. unfold set_listeners. cbn.
  by rewrite <- !app_assoc.
Qed.

(** C2 fails on the sample page: the close button gets a listener of its
    own (line 29), so two dismissal listeners are registered, and the
    delegated listener does nothing for a click on the close button. *)
Lemma closeBtn_listener_not_delegated :
  let w := Sample.world Complete false Sample.page None in
  ¬ single_delegated_dismissal w ∧
  dismissal_listeners (initializeMenu w).2 =
    [ mkListener (TElement 4) "click" (closeMenu_fn 1 3) false;
      mkListener TDocument "click" (delegatedClick_fn 1 3) false ] ∧
  ∀ v, document v = Sample.page →
       delegatedClick 1 3 (TElement 4) v = (Normal tt, v).
Proof.
  intros w.
  assert (Hl : dismissal_listeners (initializeMenu w).2 =
    [ mkListener (TElement 4) "click" (closeMenu_fn 1 3) false;
      mkListener TDocument "click" (delegatedClick_fn 1 3) false ])
    by (vm_compute; reflexivity).
  split; [|split; [exact Hl|]].
  - intros [_ Hlen]. rewrite Hl in Hlen. discriminate.
  - intros v Hv. unfold delegatedClick. js_unfold. by rewrite Hv.
Qed.

(** C2, amended: with the three elements present, [initializeMenu]
    completes normally and registers exactly three listeners, whatever the
    document contains besides; two of them dismiss the drawer: [closeMenu]
    on the close button itself, and one delegated listener on the document,
    which closes the drawer for a click on a navigation link and for a click
    on the drawer's own background. *)
Theorem dismissal_wiring (w : World) (mt ms cb : nat) :
  getElementById "menuToggle" (document w) = Some mt →
  getElementById "mobileSidebar" (document w) = Some ms →
  getElementById "closeBtn" (document w) = Some cb →
  ∃ w', initializeMenu w = (Normal tt, w') ∧
    listeners w' = listeners w ++
      [ mkListener (TElement mt) "click" (toggleMenu_fn mt ms) false;
        mkListener (TElement cb) "click" (closeMenu_fn mt ms) false;
        mkListener TDocument "click" (delegatedClick_fn mt ms) false ] ∧
    dismissal_listeners w' = dismissal_listeners w ++
      [ mkListener (TElement cb) "click" (closeMenu_fn mt ms) false;
        mkListener TDocument "click" (delegatedClick_fn mt ms) false ] ∧
    ∀ v t, is_Some (closest_nav_link (document v) t) ∨ t = ms →
           ∃ v', delegatedClick mt ms (TElement t) v = (Normal tt, v') ∧
                 drawer_open ms v' = false ∧ scroll_locked v' = false.
Proof.
  intros Hmt Hms Hcb. eexists. split; [by apply initializeMenu_wires|].
  split; [done|]. split.
  - unfold dismissal_listeners. cbn. by rewrite filter_app.
  - intros v t Ht. unfold delegatedClick. js_unfold.
    destruct (closeMenu_closes mt ms v) as (v1 & Hv1 & Ho1 & Hs1).
    destruct (closest_nav_link (document v) t) as [a|] eqn:Hlink.
    + rewrite Hv1. destruct (decide (t = ms)) as [->|Hne].
      * destruct (closeMenu_closes mt ms v1) as (v2 & Hv2 & Ho2 & Hs2).
        rewrite Hv2. eauto.
      * eauto.
    + destruct Ht as [[? [=]]| ->]. rewrite decide_True by done.
      rewrite Hv1. eauto.
Qed.

Lemma dismissal_wiring_witness :
  let w := Sample.world Complete false Sample.page None in
  ∃ w', initializeMenu w = (Normal tt, w') ∧
    listeners w' = listeners w ++
      [ mkListener (TElement 1) "click" (toggleMenu_fn 1 3) false;
        mkListener (TElement 4) "click" (closeMenu_fn 1 3) false;
        mkListener TDocument "click" (delegatedClick_fn 1 3) false ] ∧
    dismissal_listeners w' = dismissal_listeners w ++
      [ mkListener (TElement 4) "click" (closeMenu_fn 1 3) false;
        mkListener TDocument "click" (delegatedClick_fn 1 3) false ] ∧
    ∀ v t, is_Some (closest_nav_link (document v) t) ∨ t = 3%nat →
           ∃ v', delegatedClick 1 3 (TElement t) v = (Normal tt, v') ∧
                 drawer_open 3 v' = false ∧ scroll_locked v' = false.
Proof. intros w. apply (dismissal_wiring w 1 3 4); reflexivity. Defined.

(** ** Scheduling the map *)

Lemma set_listeners_nil (w : World) : set_listeners (λ ls, ls ++ []) w = w.
Proof. destruct w. unfold set_listeners. cbn. by rewrite app_nil_r. Qed.

(** Whatever happens in [initializeMenu], it only appends click listeners,
    none of which calls [initializeMap]. *)
Lemma initializeMenu_appends (w : World) :
  ∃ added, (initializeMenu w).2 = set_listeners (λ ls, ls ++ added) w ∧
           Forall (λ l, l_type l = "click" ∧ l_once l = false ∧
                        l_callback l ≠ initializeMap_fn) added.
Proof.
  unfold initializeMenu. js_unfold.
  destruct (getElementById "menuToggle" (document w)) as [mt|];
    [|exists []; by rewrite set_listeners_nil].
  destruct (getElementById "mobileSidebar" (document w)) as [ms|];
    [|exists []; by rewrite set_listeners_nil].
  destruct (getElementById "closeBtn" (document w)) as [cb|]; cbn.
  - eexists [_; _; _]. split.
    + unfold set_listeners. cbn. by rewrite <- !app_assoc.
    + repeat constructor; done.
  - eexists [_]. split; [done|]. repeat constructor; done.
Qed.

Lemma map_listeners_app (w : World) (added : list Listener) :
  map_listeners (set_listeners (λ ls, ls ++ added) w)
  = map_listeners w ++ filter (λ l, l_callback l = initializeMap_fn) added.
Proof. unfold map_listeners. cbn. by rewrite filter_app. Qed.

Lemma filter_no_map (added : list Listener) :
  Forall (λ l, l_type l = "click" ∧ l_once l = false ∧
               l_callback l ≠ initializeMap_fn) added →
  filter (λ l, l_callback l = initializeMap_fn) added = [].
Proof.
  induction 1 as [|l ls (_ & _ & Hl) _ IH]; [done|].
  by rewrite filter_cons_False.
Qed.

Lemma initializeMenu_map_triggers (w : World) :
  map_listeners (initializeMenu w).2 = map_listeners w ∧
  map_timers (initializeMenu w).2 = map_timers w ∧
  hidden (initializeMenu w).2 = hidden w.
Proof.
  destruct (initializeMenu_appends w) as (added & -> & Hadded).
  rewrite map_listeners_app, (filter_no_map _ Hadded), app_nil_r. done.
Qed.

(** When the drawer wiring completes, the [DOMContentLoaded] function
    registers one trigger for [initializeMap]: the one-shot visibility
    listener on a hidden page, the 500ms timer on a visible one. *)
Lemma onDOMContentLoaded_one_trigger (w : World) :
  (initializeMenu w).1 = Normal tt →
  ∃ w', onDOMContentLoaded w = (Normal tt, w') ∧
    if hidden w
    then map_listeners w' = map_listeners w ++
           [mkListener TDocument "visibilitychange" initializeMap_fn true] ∧
         map_timers w' = map_timers w
    else map_listeners w' = map_listeners w ∧
         map_timers w' = map_timers w ++ [(initializeMap_fn, 500)].
Proof.
  intros Hok. destruct (initializeMenu_map_triggers w) as (Hl & Ht & Hh).
  unfold onDOMContentLoaded. js_unfold.
  destruct (initializeMenu w) as [[[]|e] w1]; [|done]. cbn in *.
  rewrite Hh. destruct (hidden w); eexists; (split; [reflexivity|]).
  - unfold map_listeners, map_timers in *. cbn.
    by rewrite filter_app, Hl, Ht.
  - unfold map_listeners, map_timers in *. cbn.
    by rewrite filter_app, Hl, Ht.
Qed.

(** When the document is no longer loading, the script registers the timer,
    hidden page or not. *)
Lemma deferInit_one_trigger (w : World) :
  readyState w ≠ Loading →
  (initializeMenu w).1 = Normal tt →
  ∃ w', deferInit w = (Normal tt, w') ∧
        map_listeners w' = map_listeners w ∧
        map_timers w' = map_timers w ++ [(initializeMap_fn, 500)].
Proof.
  intros Hrs Hok. destruct (initializeMenu_map_triggers w) as (Hl & Ht & Hh).
  unfold deferInit. js_unfold. rewrite decide_False by done.
  destruct (initializeMenu w) as [[[]|e] w1]; [|done]. cbn in *.
  eexists. split; [reflexivity|].
  unfold map_listeners, map_timers in *. cbn. by rewrite filter_app, Hl, Ht.
Qed.

(** When the drawer wiring throws, the statement that would have scheduled
    the map is never reached. *)
Lemma onDOMContentLoaded_aborted (w : World) (e : JsError) :
  (initializeMenu w).1 = Throw e →
  ∃ w', onDOMContentLoaded w = (Throw e, w') ∧
        map_listeners w' = map_listeners w ∧ map_timers w' = map_timers w.
Proof.
  intros Hthrow. destruct (initializeMenu_map_triggers w) as (Hl & Ht & Hh).
  unfold onDOMContentLoaded. js_unfold.
  destruct (initializeMenu w) as [[[]|e'] w1]; [done|]. cbn in *.
  injection Hthrow as ->. eauto.
Qed.

Lemma deferInit_aborted (w : World) (e : JsError) :
  readyState w ≠ Loading →
  (initializeMenu w).1 = Throw e →
  ∃ w', deferInit w = (Throw e, w') ∧
        map_listeners w' = map_listeners w ∧ map_timers w' = map_timers w.
Proof.
  intros Hrs Hthrow. destruct (initializeMenu_map_triggers w) as (Hl & Ht & Hh).
  unfold deferInit. js_unfold. rewrite decide_False by done.
  destruct (initializeMenu w) as [[[]|e'] w1]; [done|]. cbn in *.
  injection Hthrow as ->. eauto.
Qed.

(** C5 at a page with the menu trigger and the drawer but no close button:
    whether the document was still loading or not, hidden or visible, the
    page ends up with neither the timer nor the visibility listener; the
    TypeError of [initializeMenu] is all that is left of the deferred
    initialization, and no later event calls [initializeMap]. *)
Theorem map_never_scheduled_without_closeBtn :
  ∀ rs h,
    let w := page_ready (Sample.world rs h Sample.page_no_closeBtn
                           (Some Sample.leaflet_ok)) in
    map_timers w = [] ∧ map_listeners w = [] ∧
    TypeError "closeBtn is null" ∈ uncaught w ∧
    leaflet_calls (run w [VisibilityChange; Timeout 0; Load; VisibilityChange]) = [].
Proof.
  intros rs h. destruct rs, h; vm_compute; (repeat split; try done; set_solver).
Qed.

(** On the complete sample page one trigger is registered: the one-shot
    visibility listener when the document was loading and the page is
    hidden, the timer otherwise; and [initializeMap] runs once. *)
Example sample_page_triggers :
  (λ '(rs, h),
     let w := page_ready (Sample.world rs h Sample.page (Some Sample.leaflet_ok)) in
     (map_listeners w, map_timers w)) <$>
    [(Loading, true); (Loading, false); (Complete, true); (Complete, false)]
  = [ ([mkListener TDocument "visibilitychange" initializeMap_fn true], []);
      ([], [(initializeMap_fn, 500)]);
      ([], [(initializeMap_fn, 500)]);
      ([], [(initializeMap_fn, 500)]) ].
Proof. vm_compute. reflexivity. Qed.

Example sample_page_map_once :
  let w := page_ready (Sample.world Loading true Sample.page
                         (Some Sample.leaflet_ok)) in
  let v := run w [VisibilityChange; VisibilityChange; Timeout 0; VisibilityChange] in
  length (leaflet_calls v) = 8%nat ∧ map_listeners v = [] ∧ map_timers v = [].
Proof. vm_compute. done. Qed.

(** ** The scroll lock follows the drawer *)

Lemma elem_sim_refl (e : Element) : elem_sim e e.
Proof. by repeat split. Qed.

Lemma doc_sim_refl (d : Document) : doc_sim d d.
Proof. induction d; constructor; auto using elem_sim_refl. Qed.

Lemma elem_sim_toggle (e e' : Element) :
  elem_sim e e' → elem_sim e (toggle_token "active" e').
Proof.
  intros (Ht & Hi & Hp & Hc). repeat split; try done; cbn;
    destruct (decide ("active" ∈ classList e')); set_solver.
Qed.

Lemma elem_sim_remove (e e' : Element) :
  elem_sim e e' → elem_sim e (remove_token "active" e').
Proof.
  intros (Ht & Hi & Hp & Hc). repeat split; try done; cbn; set_solver.
Qed.

Lemma doc_sim_toggle (d d' : Document) (i : nat) :
  doc_sim d d' → doc_sim d (classList_toggle "active" i d').
Proof. intros H. apply Forall2_alter_r; auto using elem_sim_toggle. Qed.

Lemma doc_sim_remove (d d' : Document) (i : nat) :
  doc_sim d d' → doc_sim d (classList_remove "active" i d').
Proof. intros H. apply Forall2_alter_r; auto using elem_sim_remove. Qed.

Lemma doc_sim_lookup (d d' : Document) (i : nat) :
  doc_sim d d' →
  match d !! i, d' !! i with
  | Some e, Some e' => elem_sim e e'
  | None, None => True
  | _, _ => False
  end.
Proof.
  intros H. destruct (d !! i) as [e|] eqn:He.
  - destruct (Forall2_lookup_l _ _ _ _ _ H He) as (e' & -> & Hs). done.
  - destruct (d' !! i) as [e'|] eqn:He'; [|done].
    destruct (Forall2_lookup_r _ _ _ _ _ H He') as (e & He2 & _). congruence.
Qed.

Lemma doc_sim_ancestors (d d' : Document) :
  doc_sim d d' →
  ∀ n i, ancestors_from n d i = ancestors_from n d' i.
Proof.
  intros H n. induction n as [|n IH]; intros i; [done|]. cbn.
  pose proof (doc_sim_lookup d d' i H) as Hi.
  destruct (d !! i) as [e|], (d' !! i) as [e'|]; try done.
  destruct Hi as (_ & _ & -> & _).
  destruct (parentElement e'); [|done]. by rewrite IH.
Qed.

Lemma doc_sim_inclusive_ancestors (d d' : Document) (i : nat) :
  doc_sim d d' → inclusive_ancestors d i = inclusive_ancestors d' i.
Proof.
  intros H. unfold inclusive_ancestors.
  rewrite (Forall2_length _ _ _ H). by apply doc_sim_ancestors.
Qed.

Lemma doc_sim_has_class (d d' : Document) (c : string) (i : nat) :
  doc_sim d d' → c ≠ "active" → has_class d c i = has_class d' c i.
Proof.
  intros H Hc. unfold has_class, classList_contains.
  pose proof (doc_sim_lookup d d' i H) as Hi.
  destruct (d !! i) as [e|], (d' !! i) as [e'|]; try done.
  destruct Hi as (_ & _ & _ & Hcls).
  apply bool_decide_ext. by apply Hcls.
Qed.

Lemma doc_sim_matches_nav_link (d d' : Document) (i : nat) :
  doc_sim d d' → matches_nav_link d i = matches_nav_link d' i.
Proof.
  intros H. unfold matches_nav_link.
  pose proof (doc_sim_lookup d d' i H) as Hi.
  rewrite (doc_sim_inclusive_ancestors d d' i H).
  destruct (d !! i) as [e|], (d' !! i) as [e'|]; try done.
  destruct Hi as (-> & _). f_equal.
  induction (tail (inclusive_ancestors d' i)) as [|j js IH]; [done|]. cbn.
  by rewrite IH, !(doc_sim_has_class d d' _ j H).
Qed.

Lemma doc_sim_closest_nav_link (d d' : Document) (i : nat) :
  doc_sim d d' → closest_nav_link d i = closest_nav_link d' i.
Proof.
  intros H. unfold closest_nav_link.
  rewrite (doc_sim_inclusive_ancestors d d' i H). f_equal.
  apply list_find_ext. intros j. by rewrite (doc_sim_matches_nav_link d d' j H).
Qed.

Lemma ancestors_from_valid (n : nat) (d : Document) (i j : nat) :
  j ∈ ancestors_from n d i → is_Some (d !! i).
Proof.
  destruct n as [|n]; cbn; [by intros ?%elem_of_nil|].
  destruct (d !! i); [eauto|by intros ?%elem_of_nil].
Qed.

Lemma getElementById_valid (id : string) (d : Document) (i : nat) :
  getElementById id d = Some i → is_Some (d !! i).
Proof.
  unfold getElementById. intros H.
  apply fmap_Some in H as ([j e] & Hfind & ->).
  apply list_find_Some in Hfind as (Hl & _). eauto.
Qed.

Section DrawerClicks.
Variable d0 : Document.
Variables mt ms : nat.

Lemma toggleMenu_step (v : World) :
  doc_sim d0 (document v) →
  ∃ v', toggleMenu mt ms v = (Normal tt, v') ∧ click_step d0 ms True v v'.
Proof.
  intros Hsim. eexists. split; [reflexivity|].
  assert (Hm : ∀ v0 : World,
    mirrors ms (set_body_overflow
                  (if classList_contains "active" ms (document v0)
                   then "hidden" else "auto") v0)).
  { intros v0. unfold mirrors, scroll_locked, drawer_open. cbn.
    by destruct (classList_contains "active" ms (document v0)). }
  repeat split; cbn; auto using doc_sim_toggle.
  - intros _. apply (Hm (set_document (classList_toggle "active" ms)
                           (set_document (classList_toggle "active" mt) v))).
  - intros _. apply (Hm (set_document (classList_toggle "active" ms)
                           (set_document (classList_toggle "active" mt) v))).
Qed.

Lemma closeMenu_step (v : World) :
  doc_sim d0 (document v) →
  ∃ v', closeMenu mt ms v = (Normal tt, v') ∧ click_step d0 ms True v v'.
Proof.
  intros Hsim. destruct (closeMenu_closes mt ms v) as (v' & Hv' & Ho & Hs).
  exists v'. split; [done|].
  assert (Hm : mirrors ms v') by (unfold mirrors; congruence).
  injection Hv' as <-. repeat split; cbn; auto using doc_sim_remove.
Qed.

Lemma click_step_trans (E1 E2 : Prop) (v1 v2 v3 : World) :
  click_step d0 ms E1 v1 v2 → click_step d0 ms E2 v2 v3 → click_step d0 ms (E1 ∨ E2) v1 v3.
Proof.
  intros (Hl1 & Hd1 & Hp1 & He1) (Hl2 & Hd2 & Hp2 & He2).
  repeat split; [congruence|done|auto|]. intros [?|?]; auto.
Qed.

Lemma click_step_refl (v : World) : doc_sim d0 (document v) → click_step d0 ms False v v.
Proof. by repeat split. Qed.

Lemma click_step_weaken (E E' : Prop) (v v' : World) :
  (E' → E) → click_step d0 ms E v v' → click_step d0 ms E' v v'.
Proof. intros HE (?&?&?&?). repeat split; auto. Qed.

Lemma delegatedClick_step (v : World) (t : nat) :
  doc_sim d0 (document v) →
  ∃ v', delegatedClick mt ms (TElement t) v = (Normal tt, v') ∧
        click_step d0 ms (is_Some (closest_nav_link d0 t) ∨ t = ms) v v'.
Proof.
  intros Hsim. unfold delegatedClick. js_unfold.
  rewrite <- (doc_sim_closest_nav_link d0 (document v) t Hsim).
  destruct (closest_nav_link d0 t) as [a|].
  - destruct (closeMenu_step v Hsim) as (v1 & -> & Hs1).
    destruct (decide (t = ms)) as [->|Hne].
    + destruct (closeMenu_step v1 (proj1 (proj2 Hs1))) as (v2 & -> & Hs2).
      exists v2. split; [done|].
      eapply click_step_weaken;
        [|eapply click_step_trans; [exact Hs1|exact Hs2]].
      auto.
    + exists v1. split; [done|]. eapply click_step_weaken; [|exact Hs1]. done.
  - destruct (decide (t = ms)) as [->|Hne].
    + destruct (closeMenu_step v Hsim) as (v1 & -> & Hs1).
      exists v1. split; [done|]. eapply click_step_weaken; [|exact Hs1]. done.
    + exists v. split; [done|].
      eapply click_step_weaken; [|by apply click_step_refl].
      intros [[? [=]]|?]; done.
Qed.

Lemma set_uncaught_step (E : Prop) (f : list JsError → list JsError)
    (v v' : World) :
  click_step d0 ms E v v' → click_step d0 ms E v (set_uncaught f v').
Proof. intros (?&?&?&?). by repeat split. Qed.

Lemma call_step (cb : Callback) (e : Event) (v : World) :
  click_callback mt ms cb → doc_sim d0 (document v) →
  click_step d0 ms (establishes d0 mt ms e cb) v (run_task (call cb e) v).
Proof.
  intros Hcb Hsim. unfold run_task.
  destruct Hcb as [->|[->|[->| ->]]]; cbn [call].
  - destruct (toggleMenu_step v Hsim) as (v' & -> & Hs).
    eapply click_step_weaken; [|exact Hs]. done.
  - destruct (closeMenu_step v Hsim) as (v' & -> & Hs).
    eapply click_step_weaken; [|exact Hs]. done.
  - destruct (ev_target e) as [t| |] eqn:Ht.
    + destruct (delegatedClick_step v t Hsim) as (v' & -> & Hs).
      eapply click_step_weaken; [|exact Hs].
      intros [[=]|[[=]|(_ & t' & Heq & H)]]. rewrite Ht in Heq.
      by injection Heq as <-.
    + cbn. apply set_uncaught_step.
      eapply click_step_weaken; [|by apply click_step_refl].
      intros [[=]|[[=]|(_ & t' & Heq & _)]]. by rewrite Ht in Heq.
    + cbn. apply set_uncaught_step.
      eapply click_step_weaken; [|by apply click_step_refl].
      intros [[=]|[[=]|(_ & t' & Heq & _)]]. by rewrite Ht in Heq.
  - cbn. repeat split; [done..|]. intros [[=]|[[=]|([=] & _)]].
Qed.

Lemma foldl_invoke_step (e : Event) (ls : list Listener) (v : World) :
  Forall (click_listener mt ms) ls → doc_sim d0 (document v) →
  click_step d0 ms (Exists (λ l, establishes d0 mt ms e (l_callback l)) ls) v
             (foldl (invoke e) v ls).
Proof.
  intros Hls. revert v. induction Hls as [|l ls [Honce Hcb] _ IH]; intros v Hsim.
  - cbn. eapply click_step_weaken; [|by apply click_step_refl].
    by intros ?%Exists_nil.
  - cbn. unfold invoke at 2. rewrite Honce.
    pose proof (call_step (l_callback l) e v Hcb Hsim) as Hs1.
    pose proof (IH _ (proj1 (proj2 Hs1))) as Hs2.
    eapply click_step_weaken; [|eapply click_step_trans; eassumption].
    intros [?|?]%Exists_cons; auto.
Qed.

Lemma foldl_fire_at_step (e : Event) (path : list EventTarget) (v : World) :
  (∀ l, l ∈ listeners v → l_type l = ev_type e → click_listener mt ms l) →
  doc_sim d0 (document v) →
  click_step d0 ms (∃ l, l ∈ listeners v ∧ l_target l ∈ path ∧
                   l_type l = ev_type e ∧ establishes d0 mt ms e (l_callback l))
             v (foldl (fire_at e) v path).
Proof.
  revert v. induction path as [|t path IH]; intros v Hls Hsim.
  - cbn. eapply click_step_weaken; [|by apply click_step_refl].
    by intros (l & _ & ?%elem_of_nil & _).
  - cbn. unfold fire_at at 2.
    assert (Hfor : Forall (click_listener mt ms) (listeners_for t (ev_type e) v)).
    { apply Forall_forall. intros l [[_ Hty] Hin]%list_elem_of_filter. auto. }
    pose proof (foldl_invoke_step e _ v Hfor Hsim) as Hs1.
    pose proof Hs1 as (Hl1 & Hd1 & _ & _).
    assert (Hls1 : ∀ l, l ∈ listeners (foldl (invoke e) v (listeners_for t (ev_type e) v)) →
                        l_type l = ev_type e → click_listener mt ms l)
      by (rewrite Hl1; exact Hls).
    pose proof (IH _ Hls1 Hd1) as Hs2. rewrite Hl1 in Hs2.
    eapply click_step_weaken;
      [|eapply click_step_trans; [exact Hs1|exact Hs2]].
    intros (l & Hin & Hpath & Hty & Hest).
    apply elem_of_cons in Hpath as [Heq|Hpath].
    + left. apply Exists_exists. exists l. split; [|done].
      apply list_elem_of_filter. by repeat split.
    + right. by exists l.
Qed.

Variable cb : nat.
Hypothesis ms_valid : is_Some (d0 !! ms).

(** One click on a wired page. *)
Lemma click_drawer_step (v : World) (t : nat) :
  wired mt ms cb (listeners v) → doc_sim d0 (document v) →
  click_step d0 ms (drawer_action mt ms cb d0 t) v (step v (Click t)).
Proof.
  intros [Hclicks Htoggle Hclose Hdeleg] Hsim. cbn [step].
  pose proof (doc_sim_lookup d0 (document v) t Hsim) as Hlook.
  assert (Hvalid : drawer_action mt ms cb d0 t → is_Some (d0 !! t)).
  { intros [H|[H|[H| ->]]]; [by eapply ancestors_from_valid..| |done].
    unfold closest_nav_link in H. apply fmap_is_Some in H as [[i j] H].
    apply list_find_Some in H as (H & _).
    eapply ancestors_from_valid, list_elem_of_lookup_2, H. }
  destruct (document v !! t) as [el|] eqn:Hel.
  - unfold dispatch. cbn [ev_target ev_type propagation_path].
    rewrite <- (doc_sim_inclusive_ancestors d0 (document v) t Hsim).
    eapply click_step_weaken; [|apply foldl_fire_at_step; [|done]].
    + intros [H|[H|[H| ->]]].
      * eexists. split; [exact Htoggle|]. cbn. split; [|split; [done|by left]].
        apply elem_of_app. left. by apply list_elem_of_fmap_2.
      * eexists. split; [exact Hclose|]. cbn.
        split; [|split; [done|by right; left]].
        apply elem_of_app. left. by apply list_elem_of_fmap_2.
      * eexists. split; [exact Hdeleg|]. cbn. split; [set_solver|].
        split; [done|]. right; right. split; [done|]. eauto.
      * eexists. split; [exact Hdeleg|]. cbn. split; [set_solver|].
        split; [done|]. right; right. split; [done|]. eauto.
    + intros l Hin Hty. by apply Hclicks.
  - eapply click_step_weaken; [|by apply click_step_refl].
    intros Hact. destruct (Hvalid Hact) as [el Hel0]. by rewrite Hel0 in Hlook.
Qed.

(** Any non-empty sequence of drawer actions ends with the scroll lock
    mirroring the drawer. *)
Lemma run_drawer_actions (ts : list nat) (v : World) :
  wired mt ms cb (listeners v) → doc_sim d0 (document v) →
  Forall (drawer_action mt ms cb d0) ts → ts ≠ [] →
  mirrors ms (run v (Click <$> ts)).
Proof.
  intros Hw Hsim Hts. revert v Hw Hsim.
  induction Hts as [|t ts Ht Hts IH]; intros v Hw Hsim Hne; [done|].
  change (run v (Click <$> t :: ts))
    with (run (step v (Click t)) (Click <$> ts)).
  destruct (click_drawer_step v t Hw Hsim) as (Hl & Hd & Hp & He).
  destruct ts as [|t' ts'].
  - apply He, Ht.
  - apply IH; [by rewrite Hl|done|done].
Qed.

End DrawerClicks.

(** ** The listeners of the loaded page *)

Lemma load_page_listeners (w0 : World) (mt ms cb : nat) :
  listeners w0 = [] →
  getElementById "menuToggle" (document w0) = Some mt →
  getElementById "mobileSidebar" (document w0) = Some ms →
  getElementById "closeBtn" (document w0) = Some cb →
  ∃ extra,
    listeners (load_page w0) =
      (if decide (readyState w0 = Loading)
       then [mkListener TDocument "DOMContentLoaded" onDOMContentLoaded_fn false]
       else drawer_listeners mt ms cb) ++ extra ∧
    Forall other_listener extra ∧
    document (load_page w0) = document w0 ∧
    readyState (load_page w0) = readyState w0.
Proof.
  intros Hls Hmt Hms Hcb.
  destruct w0 as [rs h d ov ls ts co un pf lib lc href]. cbn in *. subst ls.
  unfold load_page, run_task, script, markAppStart, performance_mark, deferInit,
    wireLoadReport, wireReportBtn, initializeMenu.
  js_unfold. cbn.
  assert (Hload : other_listener (mkListener TWindow "load" onLoad_fn false))
    by (by left).
  assert (Hrep : ∀ b, other_listener
                        (mkListener (TElement b) "click" onReportClick_fn false))
    by (by right).
  destruct pf as [[hm hme mk me nav]|]; cbn;
    [destruct hm, hme; cbn|];
    (destruct (decide (rs = Loading)); cbn; rewrite ?Hmt, ?Hms, ?Hcb; cbn;
     destruct (querySelector_class "issue-report-btn" d); cbn;
     eexists; (split; [reflexivity|]); (split; [|done]); auto).
Qed.

Lemma other_listener_not_ready (t : EventTarget) (extra : list Listener) :
  Forall other_listener extra →
  filter (λ l, l_target l = t ∧ l_type l = "DOMContentLoaded") extra = [].
Proof.
  induction 1 as [|l ls Hl _ IH]; [done|].
  rewrite filter_cons_False; [done|].
  intros [_ Hty]. destruct Hl as [Hl|[Hl _]]; congruence.
Qed.

Lemma wired_intro (mt ms cb : nat) (pre extra post : list Listener) :
  Forall (λ l, l_type l ≠ "click") pre →
  Forall other_listener extra →
  Forall (λ l, l_type l ≠ "click") post →
  wired mt ms cb (pre ++ extra ++ drawer_listeners mt ms cb ++ post) ∧
  wired mt ms cb (drawer_listeners mt ms cb ++ extra).
Proof.
  intros Hpre Hextra Hpost.
  assert (Hd : ∀ l, l ∈ drawer_listeners mt ms cb → click_listener mt ms l).
  { intros l Hin. unfold drawer_listeners in Hin.
    repeat (apply elem_of_cons in Hin as [->|Hin]);
      [unfold click_listener, click_callback; cbn; auto..
      |by apply elem_of_nil in Hin]. }
  assert (He : ∀ l, l ∈ extra → l_type l = "click" → click_listener mt ms l).
  { intros l Hin Hty. rewrite Forall_forall in Hextra.
    destruct (Hextra l Hin) as [?|(_ & ? & ?)]; [congruence|].
    unfold click_listener, click_callback. auto. }
  rewrite Forall_forall in Hpre, Hpost.
  split; split.
  - intros l Hin Hty. rewrite !elem_of_app in Hin.
    destruct Hin as [Hin|[Hin|[Hin|Hin]]]; auto;
      exfalso; [eapply Hpre|eapply Hpost]; eauto.
  - unfold drawer_listeners. set_solver.
  - unfold drawer_listeners. set_solver.
  - unfold drawer_listeners. set_solver.
  - intros l Hin Hty. rewrite elem_of_app in Hin. destruct Hin; auto.
  - unfold drawer_listeners. set_solver.
  - unfold drawer_listeners. set_solver.
  - unfold drawer_listeners. set_solver.
Qed.

(** On a page that has the three drawer elements, once the deferred
    initialization has run the drawer is wired and the document is the one
    the script found. *)
Lemma page_ready_wired (w0 : World) (mt ms cb : nat) :
  listeners w0 = [] →
  getElementById "menuToggle" (document w0) = Some mt →
  getElementById "mobileSidebar" (document w0) = Some ms →
  getElementById "closeBtn" (document w0) = Some cb →
  wired mt ms cb (listeners (page_ready w0)) ∧
  document (page_ready w0) = document w0.
Proof.
  intros Hls Hmt Hms Hcb.
  destruct (load_page_listeners w0 mt ms cb Hls Hmt Hms Hcb)
    as (extra & Hl & Hextra & Hdoc & Hrs).
  unfold page_ready. cbn [step]. rewrite Hrs.
  destruct (decide (readyState w0 = Loading)) as [Hloading|Hready].
  - set (w1 := set_readyState Interactive (load_page w0)).
    assert (Hmenu : initializeMenu w1 =
                      (Normal tt,
                       set_listeners (λ ls, ls ++ drawer_listeners mt ms cb) w1)).
    { apply initializeMenu_wires;
        unfold w1; cbn [document set_readyState]; by rewrite Hdoc. }
    set (e := mkEvent "DOMContentLoaded" TDocument).
    set (trigger := λ w : World,
           if hidden w1
           then set_listeners
                  (λ ls, ls ++ [mkListener TDocument "visibilitychange"
                                  initializeMap_fn true]) w
           else set_timers (λ ts, ts ++ [(initializeMap_fn, 500)]) w).
    set (w2 := trigger (set_listeners (λ ls, ls ++ drawer_listeners mt ms cb) w1)).
    assert (Hfor : listeners_for TDocument "DOMContentLoaded" w1 =
              [mkListener TDocument "DOMContentLoaded" onDOMContentLoaded_fn false]).
    { unfold listeners_for, w1. cbn [listeners set_readyState]. rewrite Hl.
      rewrite filter_app, filter_cons_True, filter_nil by done.
      by rewrite (other_listener_not_ready _ _ Hextra). }
    assert (Hfire1 : fire_at e w1 TDocument = w2).
    { unfold fire_at. cbn [ev_type e]. rewrite Hfor. cbn [foldl].
      unfold invoke. cbn [l_once l_callback call].
      unfold run_task, onDOMContentLoaded. js_unfold. rewrite Hmenu.
      unfold w2, trigger. cbn [hidden set_listeners]. by destruct (hidden w1). }
    assert (Hl2 : ∃ post, listeners w2 =
                    [mkListener TDocument "DOMContentLoaded" onDOMContentLoaded_fn false]
                    ++ extra ++ drawer_listeners mt ms cb ++ post ∧
                    Forall (λ l, l_type l ≠ "click" ∧
                                 l_type l ≠ "DOMContentLoaded") post).
    { unfold w2, trigger, w1. destruct (hidden _);
        cbn [listeners set_listeners set_timers set_readyState]; rewrite Hl.
      - eexists [_]. rewrite <- !app_assoc. split; [done|].
        by repeat constructor.
      - exists []. rewrite <- !app_assoc, app_nil_r. by split. }
    destruct Hl2 as (post & Hl2 & Hpost).
    assert (Hfire2 : fire_at e w2 TWindow = w2).
    { unfold fire_at, listeners_for. cbn [ev_type e]. rewrite Hl2.
      rewrite !filter_app, (other_listener_not_ready _ _ Hextra).
      rewrite filter_cons_False, filter_nil by (by intros [[=] _]).
      assert (Hd : filter (λ l, l_target l = TWindow ∧ l_type l = "DOMContentLoaded")
                     (drawer_listeners mt ms cb) = []).
      { unfold drawer_listeners.
        rewrite !filter_cons_False, filter_nil; [done|by intros [_ [=]]..]. }
      assert (Hp : filter (λ l, l_target l = TWindow ∧ l_type l = "DOMContentLoaded")
                     post = []).
      { clear Hl2. induction Hpost as [|l ls [_ Hne] _ IH]; [done|].
        rewrite filter_cons_False; [done|]. by intros [_ ?]. }
      by rewrite Hd, Hp. }
    assert (Hdispatch : dispatch e w1 = w2).
    { unfold dispatch. cbn [ev_target e propagation_path foldl].
      by rewrite Hfire1, Hfire2. }
    rewrite Hdispatch. split.
    + rewrite Hl2. apply wired_intro; [by repeat constructor|done|].
      eapply Forall_impl; [exact Hpost|]. by intros l [? _].
    + unfold w2, trigger, w1. by destruct (hidden _).
  - rewrite Hl. split; [|done]. by apply (wired_intro mt ms cb [] extra []).
Qed.

(** C1: on a page with the three drawer elements, evaluated by this script
    alone, take any sequence of drawer actions (clicks on the menu trigger,
    on the close trigger, on a navigation link, on the drawer's background).
    After each of them the scroll lock is on exactly when the drawer is
    open. *)
Theorem scroll_lock_mirrors_drawer (w0 : World) (mt ms cb : nat)
    (ts : list nat) (n : nat) :
  listeners w0 = [] →
  getElementById "menuToggle" (document w0) = Some mt →
  getElementById "mobileSidebar" (document w0) = Some ms →
  getElementById "closeBtn" (document w0) = Some cb →
  Forall (drawer_action mt ms cb (document w0)) ts →
  (0 < n ≤ length ts)%nat →
  let w := run (page_ready w0) (Click <$> take n ts) in
  scroll_locked w = true ↔ drawer_open ms w = true.
Proof.
  intros Hls Hmt Hms Hcb Hts Hn w.
  destruct (page_ready_wired w0 mt ms cb Hls Hmt Hms Hcb) as [Hw Hdoc].
  assert (Hm : mirrors ms w).
  { apply (run_drawer_actions (document w0) mt ms cb).
    - by eapply getElementById_valid.
    - done.
    - rewrite Hdoc. apply doc_sim_refl.
    - by apply Forall_take.
    - intros Hnil. apply (f_equal length) in Hnil.
      rewrite length_take in Hnil. cbn in Hnil. lia. }
  unfold mirrors in Hm. by rewrite Hm.
Qed.

Lemma scroll_lock_mirrors_drawer_witness :
  let w := run (page_ready (Sample.world Loading false Sample.page None))
               (Click <$> take 3 [2; 6; 1; 3; 2; 4]%nat) in
  scroll_locked w = true ↔ drawer_open 3 w = true.
Proof.
  apply (scroll_lock_mirrors_drawer
           (Sample.world Loading false Sample.page None) 1 3 4
           [2; 6; 1; 3; 2; 4]%nat 3);
    [reflexivity | reflexivity | reflexivity | reflexivity | | cbn; lia].
  apply (bool_decide_unpack
           (Forall (drawer_action 1 3 4 Sample.page) [2; 6; 1; 3; 2; 4]%nat)).
  vm_compute. exact I.
Defined.

(** The same sequence, state by state. *)
Example drawer_trace :
  let w := page_ready (Sample.world Loading false Sample.page None) in
  (λ n, let v := run w (Click <$> take n [2; 6; 1; 3; 2; 4]%nat) in
        (drawer_open 3 v, body_overflow v)) <$> [1; 2; 3; 4; 5; 6]%nat
  = [ (true, "hidden"); (false, "auto"); (true, "hidden"); (false, "auto");
      (true, "hidden"); (false, "auto") ].
Proof. vm_compute. reflexivity. Qed.

(** * Further properties of the script *)

(** ** [closeMenu] and [toggleMenu] as operations on the drawer *)

Lemma remove_token_twice (c : string) (e : Element) :
  remove_token c (remove_token c e) = remove_token c e.
Proof.
  destruct e as [tag id cl par]. unfold remove_token, set_classList. cbn.
  f_equal. apply set_eq. intros x. set_solver.
Qed.

Lemma remove_token_absent (c : string) (e : Element) :
  c ∉ classList e → remove_token c e = e.
Proof.
  destruct e as [tag id cl par]. unfold remove_token, set_classList. cbn.
  intros Hc. f_equal. apply set_eq. intros x. set_solver.
Qed.

Lemma classList_remove_twice (c : string) (i : nat) (d : Document) :
  classList_remove c i (classList_remove c i d) = classList_remove c i d.
Proof.
  unfold classList_remove. rewrite list_alter_alter_eq.
  apply list_alter_ext; [|done]. intros e _. apply remove_token_twice.
Qed.

Lemma classList_remove_commute (c : string) (i j : nat) (d : Document) :
  classList_remove c i (classList_remove c j d)
  = classList_remove c j (classList_remove c i d).
Proof.
  unfold classList_remove. destruct (decide (i = j)) as [->|Hne]; [done|].
  by apply list_alter_alter_ne.
Qed.

Lemma classList_remove_absent (c : string) (i : nat) (d : Document) :
  classList_contains c i d = false → classList_remove c i d = d.
Proof.
  unfold classList_contains, classList_remove. intros Hc.
  rewrite <- (list_alter_id id d i) at 2 by done.
  apply list_alter_ext; [|done]. intros e He. rewrite He in Hc.
  apply remove_token_absent. by apply bool_decide_eq_false in Hc.
Qed.

(** X1: [closeMenu] is idempotent in every state, it always ends with the
    drawer closed and the scroll lock off, and on a page whose two markers
    are already off and whose overflow is already ["auto"] it changes
    nothing at all. *)
Theorem closeMenu_idempotent (mt ms : nat) (w : World) :
  (closeMenu mt ms ;; closeMenu mt ms) w = closeMenu mt ms w ∧
  drawer_open ms (closeMenu mt ms w).2 = false ∧
  scroll_locked (closeMenu mt ms w).2 = false ∧
  (classList_contains "active" mt (document w) = false →
   drawer_open ms w = false → body_overflow w = "auto" →
   closeMenu mt ms w = (Normal tt, w)).
Proof.
  split; [|split; [|split]].
  - assert (Hdoc : ∀ d, classList_remove "active" ms
                     (classList_remove "active" mt
                        (classList_remove "active" ms
                           (classList_remove "active" mt d)))
                   = classList_remove "active" ms
                       (classList_remove "active" mt d)).
    { intros d. rewrite (classList_remove_commute "active" mt ms).
      by rewrite !classList_remove_twice. }
    unfold closeMenu. js_unfold. cbn.
    unfold set_body_overflow, set_document. cbn. by rewrite Hdoc.
  - unfold drawer_open. cbn. apply classList_contains_remove.
  - done.
  - unfold drawer_open. intros Hmt Hms Hov.
    unfold closeMenu. js_unfold. cbn. f_equal.
    unfold set_body_overflow, set_document. cbn.
    rewrite (classList_remove_absent _ mt) by done.
    rewrite (classList_remove_absent _ ms) by done.
    destruct w; cbn in *. by subst.
Qed.

Lemma toggle_token_flips (c : string) (e : Element) :
  bool_decide (c ∈ classList (toggle_token c e))
  = negb (bool_decide (c ∈ classList e)).
Proof.
  unfold toggle_token. cbn.
  destruct (decide (c ∈ classList e)) as [Hin|Hout].
  - rewrite (bool_decide_eq_true_2 _ Hin). cbn.
    apply bool_decide_eq_false. set_solver.
  - rewrite (bool_decide_eq_false_2 _ Hout). cbn.
    apply bool_decide_eq_true. set_solver.
Qed.

Lemma classList_contains_toggle (c : string) (i : nat) (d : Document) :
  is_Some (d !! i) →
  classList_contains c i (classList_toggle c i d)
  = negb (classList_contains c i d).
Proof.
  intros [e He]. unfold classList_contains, classList_toggle.
  rewrite list_lookup_alter_eq, He. cbn. apply toggle_token_flips.
Qed.

Lemma classList_contains_toggle_ne (c : string) (i j : nat) (d : Document) :
  i ≠ j →
  classList_contains c j (classList_toggle c i d) = classList_contains c j d.
Proof.
  intros Hne. unfold classList_contains, classList_toggle.
  by rewrite list_lookup_alter_ne.
Qed.

(** X2: when the menu trigger and the drawer are two elements of the
    document, one [toggleMenu] flips the marker of each, and the scroll lock
    ends equal to the drawer's new state. *)
Theorem toggleMenu_flips (mt ms : nat) (w : World) :
  mt ≠ ms → is_Some (document w !! mt) → is_Some (document w !! ms) →
  ∃ w', toggleMenu mt ms w = (Normal tt, w') ∧
        drawer_open ms w' = negb (drawer_open ms w) ∧
        classList_contains "active" mt (document w')
        = negb (classList_contains "active" mt (document w)) ∧
        scroll_locked w' = drawer_open ms w'.
Proof.
  intros Hne Hmt Hms. eexists. split; [reflexivity|].
  unfold drawer_open, scroll_locked. cbn.
  assert (Hms' : is_Some (classList_toggle "active" mt (document w) !! ms)).
  { unfold classList_toggle. by rewrite list_lookup_alter_ne. }
  rewrite (classList_contains_toggle "active" ms) by done.
  rewrite (classList_contains_toggle_ne "active" mt ms) by done.
  rewrite (classList_contains_toggle_ne "active" ms mt) by done.
  rewrite (classList_contains_toggle "active" mt) by done.
  split; [done|]. split; [done|].
  by destruct (classList_contains "active" ms (document w)).
Qed.

Lemma toggleMenu_flips_witness :
  let w := Sample.world Complete false Sample.page None in
  ∃ w', toggleMenu 1 3 w = (Normal tt, w') ∧
        drawer_open 3 w' = negb (drawer_open 3 w) ∧
        classList_contains "active" 1 (document w')
        = negb (classList_contains "active" 1 (document w)) ∧
        scroll_locked w' = drawer_open 3 w'.
Proof.
  intros w. apply toggleMenu_flips; [done | by eexists | by eexists].
Defined.

(** X3: in every state, open or closed, two [toggleMenu] calls in a row
    restore every class list; all that remains is the overflow, written to
    mirror the drawer. *)
Theorem toggleMenu_twice (mt ms : nat) (w : World) :
  (toggleMenu mt ms ;; toggleMenu mt ms) w =
    (Normal tt,
     set_body_overflow (if drawer_open ms w then "hidden" else "auto") w).
Proof.
  assert (Hdoc : classList_toggle "active" ms
                   (classList_toggle "active" mt
                      (classList_toggle "active" ms
                         (classList_toggle "active" mt (document w))))
                 = document w).
  { rewrite (classList_toggle_commute "active" mt ms).
    by rewrite !classList_toggle_twice. }
  unfold toggleMenu, drawer_open. js_unfold. cbn. rewrite Hdoc.
  unfold set_body_overflow, set_document. cbn. rewrite Hdoc.
  by destruct w.
Qed.

Lemma closeMenu_idempotent_witness :
  let w := set_body_overflow "auto" (Sample.world Complete false Sample.page None) in
  closeMenu 1 3 w = (Normal tt, w).
Proof.
  intros w. apply (proj2 (proj2 (proj2 (closeMenu_idempotent 1 3 w))));
    reflexivity.
Defined.

(** ** The order of the library calls *)

Lemma buildMap_sequence (w : World) : buildMap w = leaflet_sequence map_calls w.
Proof.
  unfold buildMap, leaflet_sequence, map_calls. cbn [foldr].
  unfold mbind, JS_bind, mret, JS_ret.
  repeat (match goal with
          | |- context [leaflet_call ?c ?v] =>
              destruct (leaflet_call c v) as [[[]|?] ?]; [|reflexivity]
          end).
  reflexivity.
Qed.

Lemma leaflet_sequence_outcome (lib : Leaflet) (cs : list LeafletCall) (w : World) :
  L w = Some lib →
  leaflet_sequence cs w =
    match first_throw lib (leaflet_calls w) cs with
    | None => (Normal tt, set_leaflet_calls (λ h, h ++ cs) w)
    | Some (n, e) => (Throw e, set_leaflet_calls (λ h, h ++ take (S n) cs) w)
    end.
Proof.
  revert w. induction cs as [|c cs IH]; intros w Hlib.
  - cbn. unfold mret, JS_ret. f_equal. destruct w; unfold set_leaflet_calls; cbn.
    by rewrite app_nil_r.
  - cbn [leaflet_sequence foldr first_throw].
    unfold mbind at 1; unfold JS_bind at 1.
    rewrite (leaflet_call_outcome c w lib Hlib).
    destruct (lib (leaflet_calls w) c) as [e|]; [done|].
    fold (leaflet_sequence cs). rewrite IH by done. cbn [leaflet_calls set_leaflet_calls].
    destruct (first_throw lib (leaflet_calls w ++ [c]) cs) as [[n e]|];
      f_equal; unfold set_leaflet_calls; cbn; by rewrite <- app_assoc.
Qed.



(** What [initializeMap] can change: the library's call history, by a
    prefix of the eight calls, and the console. *)
Lemma initializeMap_effect (w : World) :
  ∃ k co, initializeMap w =
            (Normal tt,
             set_console (λ _, co)
               (set_leaflet_calls (λ h, h ++ take k map_calls) w)) ∧
          filter (λ c, is_console_log c = true) co
          = filter (λ c, is_console_log c = true) (console w).
Proof.
  assert (Hsame : w = set_console (λ _, console w)
                        (set_leaflet_calls (λ h, h ++ take 0 map_calls) w)).
  { destruct w; unfold set_console, set_leaflet_calls; cbn. by rewrite app_nil_r. }
  unfold initializeMap. js_unfold.
  destruct (L w) as [lib|] eqn:Hlib;
    [|exists 0%nat, (console w); by rewrite <- Hsame].
  destruct (getElementById "map" (document w)) as [m|];
    [|exists 0%nat, (console w); by rewrite <- Hsame].
  unfold try_catch. rewrite buildMap_sequence.
  rewrite (leaflet_sequence_outcome lib) by done.
  destruct (first_throw lib (leaflet_calls w) map_calls) as [[n e]|].
  - exists (S n), (console w ++ [console_warn "Map initialization error:" e]).
    split; [done|]. rewrite filter_app. cbn. by rewrite app_nil_r.
  - exists 8%nat, (console w). split; [|done]. by destruct w.
Qed.

(** ** What a callback can and cannot do *)

Lemma drawer_write_refl (v : World) : drawer_write v v.
Proof. exists (document v), (body_overflow v). split; [by destruct v|done]. Qed.

Lemma drawer_write_trans (v1 v2 v3 : World) :
  drawer_write v1 v2 → drawer_write v2 v3 → drawer_write v1 v3.
Proof.
  intros (d2 & o2 & -> & H2) (d3 & o3 & -> & H3).
  exists d3, o3. split; [done|]. intros d0 Hd. apply H3. cbn. by apply H2.
Qed.

Lemma toggleMenu_write (mt ms : nat) (v : World) :
  ∃ v', toggleMenu mt ms v = (Normal tt, v') ∧ drawer_write v v'.
Proof.
  eexists. split; [reflexivity|]. eexists _, _. split.
  - cbn. unfold set_body_overflow, set_document. cbn. reflexivity.
  - intros d0 Hd. by apply doc_sim_toggle, doc_sim_toggle.
Qed.

Lemma closeMenu_write (mt ms : nat) (v : World) :
  ∃ v', closeMenu mt ms v = (Normal tt, v') ∧ drawer_write v v'.
Proof.
  eexists. split; [reflexivity|]. eexists _, _. split.
  - cbn. unfold set_body_overflow, set_document. cbn. reflexivity.
  - intros d0 Hd. by apply doc_sim_remove, doc_sim_remove.
Qed.

Lemma delegatedClick_write (mt ms : nat) (tgt : EventTarget) (v : World) :
  ∃ v', drawer_write v v' ∧
        (delegatedClick mt ms tgt v = (Normal tt, v') ∨
         ∃ e, delegatedClick mt ms tgt v = (Throw e, v')).
Proof.
  destruct tgt as [t| |]; cbn;
    [|exists v; split; [apply drawer_write_refl|right; by eexists]..].
  js_unfold.
  destruct (closeMenu_write mt ms v) as (v1 & Hv1 & Hw1).
  destruct (closeMenu_write mt ms v1) as (v2 & Hv2 & Hw2).
  destruct (closest_nav_link (document v) t) as [a|].
  - rewrite Hv1. destruct (decide (t = ms)).
    + rewrite Hv2. exists v2. split; [by eapply drawer_write_trans|by left].
    + exists v1. split; [done|by left].
  - destruct (decide (t = ms)).
    + rewrite Hv1. exists v1. split; [done|by left].
    + exists v. split; [apply drawer_write_refl|by left].
Qed.

(** What does not depend on the reported errors. *)
Lemma callback_effect_uncaught (cb : Callback) (f : list JsError → list JsError)
    (v v' : World) :
  callback_effect cb v v' → callback_effect cb v (set_uncaught f v').
Proof. intros []. by split. Qed.

Lemma callback_effect_task (cb : Callback) (c : JS unit) (v v' : World) :
  callback_effect cb v v' →
  (c v = (Normal tt, v') ∨ ∃ e, c v = (Throw e, v')) →
  callback_effect cb v (run_task c v).
Proof.
  intros Heff [Hc|[e Hc]]; unfold run_task; rewrite Hc; [done|].
  by apply callback_effect_uncaught.
Qed.

Lemma drawer_write_effect (cb : Callback) (v v' : World) :
  cb ≠ onDOMContentLoaded_fn → cb ≠ initializeMap_fn →
  drawer_write v v' → callback_effect cb v v'.
Proof.
  intros H1 H2 (d' & ov & -> & Hd). split; cbn; try done.
  - by left.
  - exists [], []. rewrite !app_nil_r. repeat split; auto.
  - exists 0%nat. by rewrite app_nil_r.
Qed.

Lemma initializeMenu_drawer (w : World) :
  ∃ added, (initializeMenu w).2 = set_listeners (λ ls, ls ++ added) w ∧
           Forall (λ l, l_type l = "click" ∧ l_once l = false ∧
                        ∃ mt ms, click_callback mt ms (l_callback l) ∧
                                 l_callback l ≠ onReportClick_fn) added.
Proof.
  unfold initializeMenu. js_unfold.
  destruct (getElementById "menuToggle" (document w)) as [mt|];
    [|exists []; by rewrite set_listeners_nil].
  destruct (getElementById "mobileSidebar" (document w)) as [ms|];
    [|exists []; by rewrite set_listeners_nil].
  assert (Hc : ∀ t c, c = toggleMenu_fn mt ms ∨ c = closeMenu_fn mt ms ∨
                      c = delegatedClick_fn mt ms →
     let l := mkListener t "click" c false in
     l_type l = "click" ∧ l_once l = false ∧
     ∃ mt ms, click_callback mt ms (l_callback l) ∧
              l_callback l ≠ onReportClick_fn).
  { intros t c Hc. cbn. split; [done|]. split; [done|]. exists mt, ms.
    unfold click_callback. destruct Hc as [->|[->| ->]]; auto. }
  destruct (getElementById "closeBtn" (document w)) as [cb|]; cbn.
  - eexists [_; _; _]. split.
    + unfold set_listeners. cbn. by rewrite <- !app_assoc.
    + repeat constructor; apply Hc; auto.
  - eexists [_]. split; [done|]. repeat constructor; apply Hc; auto.
Qed.

Lemma drawer_listener_script (l : Listener) :
  (l_type l = "click" ∧ l_once l = false ∧
   ∃ mt ms, click_callback mt ms (l_callback l) ∧
            l_callback l ≠ onReportClick_fn) →
  script_listener l ∧ (l_callback l ≠ onLoad_fn ∧ l ≠ ready_listener) ∧
  l ≠ visibility_listener.
Proof.
  intros (Hty & Honce & mt & ms & Hcb & _).
  destruct l as [t ty c o]; cbn in *. subst.
  assert (Hplain : plain_callback c ∧ c ≠ onLoad_fn)
    by (destruct Hcb as [->|[->|[->| ->]]]; done).
  destruct Hplain as [Hplain Hload].
  split; [|split; [split|]]; try done.
  right; right. by repeat split.
Qed.

Lemma filter_visibility_drawer (added : list Listener) :
  Forall (λ l, l_type l = "click" ∧ l_once l = false ∧
               ∃ mt ms, click_callback mt ms (l_callback l) ∧
                        l_callback l ≠ onReportClick_fn) added →
  filter (λ l, l = visibility_listener) added = [] ∧
  Forall script_listener added ∧
  Forall (λ l, l_callback l ≠ onLoad_fn ∧ l ≠ ready_listener) added.
Proof.
  induction 1 as [|l ls Hl _ (IH1 & IH2 & IH3)]; [done|].
  destruct (drawer_listener_script l Hl) as (H1 & H2 & H3).
  rewrite filter_cons_False by done. by repeat split; try constructor.
Qed.

Lemma onDOMContentLoaded_effect (v : World) :
  callback_effect onDOMContentLoaded_fn v (run_task onDOMContentLoaded v).
Proof.
  destruct (initializeMenu_drawer v) as (added & Hv1 & Hadded).
  destruct (filter_visibility_drawer added Hadded) as (Hvis & Hscript & Hother).
  unfold run_task, onDOMContentLoaded. js_unfold.
  destruct (initializeMenu v) as [[[]|e] v1]; cbn in Hv1; subst v1; cbn.
  - destruct (hidden v); cbn.
    + split; cbn; try done; [by left| |exists 0%nat; by rewrite app_nil_r].
      exists (added ++ [visibility_listener]), [].
      rewrite app_nil_r, <- app_assoc, filter_app, Hvis.
      repeat split; try done.
      * apply Forall_app. split; [done|]. constructor; [|done].
        right; by left.
      * apply Forall_app. split; [done|]. by repeat constructor.
    + split; cbn; try done; [by left| |exists 0%nat; by rewrite app_nil_r].
      exists added, [(initializeMap_fn, 500)]. rewrite Hvis.
      repeat split; try done. by repeat constructor.
  - split; cbn; try done; [by left| |exists 0%nat; by rewrite app_nil_r].
    exists added, []. rewrite app_nil_r, Hvis. repeat split; try done. cbn; lia.
Qed.

Lemma onLoad_effect (v : World) :
  callback_effect onLoad_fn v (run_task onLoad v).
Proof.
  assert (Hreg : ∀ ls : list Listener, ∀ ts : list (Callback * Z),
    ∃ added ts',
      ls = ls ++ added ∧ ts = ts ++ ts' ∧
      Forall script_listener added ∧
      Forall (λ l, l_callback l ≠ onLoad_fn ∧ l ≠ ready_listener) added ∧
      Forall (λ t, t = (initializeMap_fn, 500)) ts' ∧
      (length (filter (λ l, l = visibility_listener) added) + length ts' ≤ 1)%nat ∧
      (onLoad_fn ≠ onDOMContentLoaded_fn → added = [] ∧ ts' = [])).
  { intros ls ts. exists [], []. rewrite !app_nil_r. repeat split; auto. }
  assert (Hcalls : ∀ cs : list LeafletCall,
    ∃ k, cs = cs ++ take k map_calls ∧ (onLoad_fn ≠ initializeMap_fn → k = 0%nat)).
  { intros cs. exists 0%nat. by rewrite app_nil_r. }
  unfold run_task, onLoad, performance_mark, performance_measure,
    first_navigation_entry. js_unfold.
  destruct (performance v) as [p|]; cbn;
    [|split; cbn; try done; by left].
  destruct (has_mark p); cbn; [|split; cbn; try done; by left].
  destruct (has_measure p); cbn; [|split; cbn; try done; by left].
  destruct (bool_decide ("app-start" ∈ marks p ++ ["app-end"]) &&
            bool_decide ("app-end" ∈ marks p ++ ["app-end"])); cbn;
    [|split; cbn; try done; by left].
  destruct (navigation p) as [|entry rest]; cbn;
    split; cbn; try done; by left.
Qed.

(** Whatever callback the event loop runs, on whatever event, in whatever
    state. *)
Lemma call_effect (cb : Callback) (e : Event) (v : World) :
  callback_effect cb v (run_task (call cb e) v).
Proof.
  destruct cb as [mt ms|mt ms|mt ms| | | |]; cbn [call].
  - destruct (toggleMenu_write mt ms v) as (v' & Hv' & Hw).
    eapply callback_effect_task; [by apply drawer_write_effect|eauto].
  - destruct (closeMenu_write mt ms v) as (v' & Hv' & Hw).
    eapply callback_effect_task; [by apply drawer_write_effect|eauto].
  - destruct (delegatedClick_write mt ms (ev_target e) v) as (v' & Hw & Hv').
    eapply callback_effect_task; [by apply drawer_write_effect|eauto].
  - destruct (initializeMap_effect v) as (k & co & Hv' & Hco).
    unfold run_task. rewrite Hv'. split; cbn; try done.
    + by left.
    + exists [], []. rewrite !app_nil_r. repeat split; auto.
    + by exists k.
  - apply onDOMContentLoaded_effect.
  - apply onLoad_effect.
  - unfold run_task. cbn. split; cbn; try done.
    + by right.
    + exists [], []. rewrite !app_nil_r. repeat split; auto.
    + exists 0%nat. by rewrite app_nil_r.
Qed.

(** ** Invariants of the event loop *)

Lemma remove_first_subseteq (l : Listener) (ls : list Listener) :
  remove_first l ls ⊆ ls.
Proof.
  induction ls as [|l' ls IH]; cbn; [done|].
  destruct (decide (l = l')); set_solver.
Qed.

Lemma remove_first_other (l l0 : Listener) (ls : list Listener) :
  l0 ≠ l → l0 ∈ ls → l0 ∈ remove_first l ls.
Proof.
  intros Hne. induction ls as [|l' ls IH]; cbn; [done|].
  intros [->|Hin]%elem_of_cons.
  - rewrite decide_False by done. by left.
  - destruct (decide (l = l')); [done|]. right. auto.
Qed.

Section RunInvariant.
Variable P : World → Prop.
Variable ok : Callback → Prop.
Hypothesis P_listeners : ∀ v l, P v → l ∈ listeners v → ok (l_callback l).
Hypothesis P_timers : ∀ v k cb d, P v → timers v !! k = Some (cb, d) → ok cb.
Hypothesis P_call : ∀ v cb e, P v → ok cb → P (run_task (call cb e) v).
Hypothesis P_remove :
  ∀ v l, P v → l_once l = true → P (set_listeners (remove_first l) v).
Hypothesis P_readyState : ∀ v r, P v → P (set_readyState r v).
Hypothesis P_hidden : ∀ v h, P v → P (set_hidden h v).
Hypothesis P_delete : ∀ v k, P v → P (set_timers (delete k) v).

Lemma invoke_inv (e : Event) (v : World) (l : Listener) :
  P v → ok (l_callback l) → P (invoke e v l).
Proof.
  intros Hv Hok. unfold invoke. apply P_call; [|done].
  destruct (l_once l) eqn:Honce; auto.
Qed.

Lemma foldl_invoke_inv (e : Event) (ls : list Listener) (v : World) :
  P v → Forall (λ l, ok (l_callback l)) ls → P (foldl (invoke e) v ls).
Proof.
  intros Hv Hls. revert v Hv.
  induction Hls as [|l ls Hl _ IH]; intros v Hv; [done|].
  cbn. apply IH. by apply invoke_inv.
Qed.

Lemma fire_at_inv (e : Event) (v : World) (t : EventTarget) :
  P v → P (fire_at e v t).
Proof.
  intros Hv. unfold fire_at. apply foldl_invoke_inv; [done|].
  apply Forall_forall. intros l [_ Hin]%list_elem_of_filter. eauto.
Qed.

Lemma foldl_fire_at_inv (e : Event) (path : list EventTarget) (v : World) :
  P v → P (foldl (fire_at e) v path).
Proof.
  revert v. induction path as [|t path IH]; intros v Hv; [done|].
  cbn. apply IH. by apply fire_at_inv.
Qed.

Lemma dispatch_inv (e : Event) (v : World) : P v → P (dispatch e v).
Proof. intros Hv. unfold dispatch. by apply foldl_fire_at_inv. Qed.

Lemma step_inv (v : World) (ev : PageEvent) : P v → P (step v ev).
Proof.
  intros Hv. destruct ev as [| | |k|t]; cbn [step].
  - destruct (decide (readyState v = Loading)); [|done].
    apply dispatch_inv. auto.
  - destruct (decide (readyState v = Interactive)); [|done].
    apply dispatch_inv. auto.
  - apply dispatch_inv. auto.
  - destruct (timers v !! k) as [[cb d]|] eqn:Hk; [|done].
    apply P_call; eauto.
  - destruct (document v !! t); [|done]. by apply dispatch_inv.
Qed.

Lemma run_inv (evs : list PageEvent) (v : World) : P v → P (run v evs).
Proof.
  revert v. induction evs as [|ev evs IH]; intros v Hv; [done|].
  cbn. apply IH. by apply step_inv.
Qed.

End RunInvariant.



(** X6: whatever happens to the page, the location is either left as it
    was or set to ["/html/report.html"]; no callback of this script
    navigates anywhere else. *)
Theorem location_only_report (w : World) (evs : list PageEvent) :
  location_href (run w evs) = location_href w ∨
  location_href (run w evs) = "/html/report.html".
Proof.
  apply (run_inv (λ v, location_href v = location_href w ∨
                       location_href v = "/html/report.html") (λ _, True));
    try done; [|by left].
  intros v cb e Hv _.
  destruct (eff_location _ _ _ (call_effect cb e v)) as [Heq|Heq];
    [rewrite Heq; done|by right].
Qed.

(** ** The report button *)

(** A permanent listener stays registered through anything the event loop
    runs. *)
Lemma permanent_listener_kept (l0 : Listener) (cb : Callback) (e : Event)
    (v : World) :
  l0 ∈ listeners v → l0 ∈ listeners (run_task (call cb e) v).
Proof.
  intros Hin.
  destruct (eff_registered _ _ _ (call_effect cb e v)) as (added & ts & -> & _).
  apply elem_of_app. by left.
Qed.

Lemma location_report_kept (cb : Callback) (e : Event) (v : World) :
  location_href v = "/html/report.html" →
  location_href (run_task (call cb e) v) = "/html/report.html".
Proof.
  intros Hv. destruct (eff_location _ _ _ (call_effect cb e v)); congruence.
Qed.

(** X7: on a page where the report button's listener is registered, a
    click on the button or on anything inside it ends with the location set
    to exactly ["/html/report.html"], whatever other listeners the click
    runs on its way. *)
Theorem report_click_navigates (w : World) (btn t : nat) :
  report_listener btn ∈ listeners w →
  btn ∈ inclusive_ancestors (document w) t →
  location_href (step w (Click t)) = "/html/report.html".
Proof.
  intros Hreg Hanc. cbn [step].
  destruct (ancestors_from_valid _ _ _ _ Hanc) as [el ->].
  unfold dispatch. cbn [ev_target propagation_path].
  set (e := mkEvent "click" (TElement t)).
  assert (Hpath : TElement btn ∈
            (TElement <$> inclusive_ancestors (document w) t) ++ [TDocument; TWindow]).
  { apply elem_of_app. left. by apply list_elem_of_fmap_2. }
  apply list_elem_of_split in Hpath as (p1 & p2 & ->).
  rewrite foldl_app. cbn [foldl].
  set (v1 := foldl (fire_at e) w p1).
  assert (Hv1 : report_listener btn ∈ listeners v1).
  { apply (foldl_fire_at_inv (λ v, report_listener btn ∈ listeners v) (λ _, True));
      try done.
    - intros v cb e' Hv _. by apply permanent_listener_kept.
    - intros v l Hv Honce. cbn. apply remove_first_other; [|done].
      intros <-. done. }
  assert (Hkeep : ∀ v, location_href v = "/html/report.html" →
                       ∀ l, location_href (invoke e v l) = "/html/report.html").
  { intros v Hv l. unfold invoke. apply location_report_kept.
    by destruct (l_once l). }
  assert (Hv2 : location_href (fire_at e v1 (TElement btn)) = "/html/report.html").
  { unfold fire_at.
    assert (Hin : report_listener btn ∈ listeners_for (TElement btn) (ev_type e) v1)
      by (apply list_elem_of_filter; by repeat split).
    apply list_elem_of_split in Hin as (s1 & s2 & ->).
    rewrite foldl_app. cbn [foldl].
    generalize (foldl (invoke e) v1 s1). intros v.
    assert (Hv : location_href (invoke e v (report_listener btn))
                 = "/html/report.html") by done.
    revert Hv. generalize (invoke e v (report_listener btn)). clear v.
    induction s2 as [|l s2 IH]; intros v Hv; [done|]. cbn. apply IH. auto. }
  apply (foldl_fire_at_inv (λ v, location_href v = "/html/report.html") (λ _, True));
    try done.
  intros v cb e' Hv _. by apply location_report_kept.
Qed.

Lemma report_click_navigates_witness :
  location_href
    (step (page_ready (Sample.world Loading false Sample.page None)) (Click 9))
  = "/html/report.html".
Proof.
  apply (report_click_navigates _ 9 9); vm_compute; set_solver.
Defined.

Lemma initializeMenu_completes (w : World) :
  menu_wirable (document w) → (initializeMenu w).1 = Normal tt.
Proof.
  unfold initializeMenu. js_unfold. intros [->|[->|[cb ->]]]; [done| |].
  - by destruct (getElementById "menuToggle" (document w)).
  - destruct (getElementById "menuToggle" (document w)); [|done].
    by destruct (getElementById "mobileSidebar" (document w)).
Qed.

(** ** The page right after the script has been evaluated *)

(** On a page where nothing was registered before, evaluating the script
    leaves: the [DOMContentLoaded] listener, or the drawer listeners and
    possibly the timer; then possibly the [load] listener, and possibly the
    report button's listener. Nothing else of the browser state changes but
    the timing marks and the reported errors. *)
Lemma load_page_facts (w0 : World) :
  listeners w0 = [] → timers w0 = [] →
  ∃ menu extra tm p' un,
    load_page w0 =
      mkWorld (readyState w0) (hidden w0) (document w0) (body_overflow w0)
        ((if decide (readyState w0 = Loading) then [ready_listener] else menu)
           ++ extra)
        tm (console w0) un p' (L w0) (leaflet_calls w0) (location_href w0) ∧
    Forall (λ l, l_type l = "click" ∧ l_once l = false ∧
                 ∃ mt ms, click_callback mt ms (l_callback l) ∧
                          l_callback l ≠ onReportClick_fn) menu ∧
    Forall (λ l, l = load_listener ∨ ∃ b, l = report_listener b) extra ∧
    (load_listener ∈ extra →
     ∃ p0, performance w0 = Some p0 ∧ has_mark p0 = true ∧
           has_measure p0 = true ∧
           p' = Some (mkPerformance true true (marks p0 ++ ["app-start"])
                        (measures p0) (navigation p0))) ∧
    (tm = [] ∨ (readyState w0 ≠ Loading ∧ tm = [(initializeMap_fn, 500)])) ∧
    (readyState w0 ≠ Loading → menu_wirable (document w0) →
     tm = [(initializeMap_fn, 500)]).
Proof.
  intros Hls Hts.
  destruct w0 as [rs h d ov ls ts co un pf lib lc href]. cbn in *. subst ls ts.
  unfold load_page, run_task, script, markAppStart, performance_mark, deferInit,
    wireLoadReport, wireReportBtn.
  js_unfold. cbn.
  assert (Hno : ∀ b, load_listener ∈ [report_listener b] → False)
    by (intros b [[=]|?%elem_of_nil]%elem_of_cons; done).
  assert (Hnil : load_listener ∈ @nil Listener → False)
    by (by intros ?%elem_of_nil).
  destruct pf as [[hm hme mk me nav]|]; cbn;
    [destruct hm, hme; cbn|];
    (destruct (decide (rs = Loading)); cbn;
     [pose (menu := @nil Listener);
      assert (Hmenu : Forall (λ l, l_type l = "click" ∧ l_once l = false ∧
                 ∃ mt ms, click_callback mt ms (l_callback l) ∧
                          l_callback l ≠ onReportClick_fn) menu) by done
     |match goal with
       | |- context [initializeMenu ?W] =>
           destruct (initializeMenu_drawer W) as (menu & Hm & Hmenu);
           destruct (initializeMenu W) as [[[]|e] w2] eqn:Hinit;
           cbn in Hm; subst w2; cbn
       end];
     try (destruct (querySelector_class "issue-report-btn" d); cbn);
     unfold set_listeners, set_timers, set_performance, set_uncaught; cbn;
     lazymatch goal with
     | Hf : Forall _ ?M
       |- ∃ _ _ _ _ _, mkWorld _ _ _ _ ?LS ?TM _ ?UN ?PF _ _ _ = _ ∧ _ =>
         let ex := lazymatch LS with
                   | (M ++ ?a) ++ ?b => constr:(a ++ b)
                   | M ++ ?a => a
                   | M => constr:(@nil Listener)
                   | _ :: ?r => r
                   end in
         exists M, ex, TM, PF, UN
     end;
     (split; [rewrite <- ?app_assoc, ?app_nil_r; reflexivity|]);
     (split; [exact Hmenu|]);
     (split; [repeat (apply Forall_cons_2; [first [by left|right; by eexists]|]);
              apply Forall_nil_2|]);
     (split; [first [by intros ?%Hno|by intros ?%Hnil
                    |intros _; eexists; by repeat split]|]);
     (split; [first [by left|right; by split]|]);
     first [by intros ?
           |by intros _ _
           |intros _ Hpre;
            match goal with
            | Hi : initializeMenu ?W = (Throw _, _) |- _ =>
                pose proof (initializeMenu_completes W Hpre) as Hn;
                rewrite Hi in Hn; discriminate
            end]).
Qed.

(** ** At most one map *)

Lemma length_filter_take {A} (P : A → Prop) `{!∀ x, Decision (P x)}
    (l : list A) (k : nat) :
  (length (filter P (take k l)) ≤ length (filter P l))%nat.
Proof.
  revert k. induction l as [|x l IH]; intros [|k]; cbn [take];
    rewrite ?filter_nil; cbn [length]; try lia.
  rewrite !filter_cons. specialize (IH k).
  destruct (decide (P x)); cbn [length]; lia.
Qed.

Lemma map_attempts_app (cs : list LeafletCall) (k : nat) :
  (length (filter (λ c, is_call_map c = true) (cs ++ take k map_calls))
   ≤ length (filter (λ c, is_call_map c = true) cs) + 1)%nat.
Proof.
  rewrite filter_app, length_app.
  pose proof (length_filter_take (λ c, is_call_map c = true) map_calls k) as H.
  change (length (filter (λ c, is_call_map c = true) map_calls)) with 1%nat in H.
  lia.
Qed.

Lemma filter_ext_Forall {A} (P Q : A → Prop)
    `{!∀ x, Decision (P x), !∀ x, Decision (Q x)} (l : list A) :
  Forall (λ x, P x ↔ Q x) l → filter P l = filter Q l.
Proof.
  induction 1 as [|x l Hx _ IH]; [done|].
  rewrite !filter_cons, IH.
  destruct (decide (P x)), (decide (Q x)); naive_solver.
Qed.

Lemma filter_eq_cases {A} `{EqDecision A} (x : A) (l : list A) :
  (length (filter (λ y, y = x) l) ≤ 1)%nat →
  filter (λ y, y = x) l = [] ∨ (filter (λ y, y = x) l = [x] ∧ x ∈ l).
Proof.
  intros Hlen.
  destruct (filter (λ y, y = x) l) as [|y [|z r]] eqn:Hf; [by left| |cbn in Hlen; lia].
  right. assert (Hy : y ∈ filter (λ y, y = x) l) by (rewrite Hf; by left).
  apply list_elem_of_filter in Hy as [-> Hin]. done.
Qed.

Lemma remove_first_split (l : Listener) (ls : list Listener) :
  l ∈ ls → ∃ l1 l2, ls = l1 ++ l :: l2 ∧ remove_first l ls = l1 ++ l2.
Proof.
  induction ls as [|l' ls IH]; [by intros ?%elem_of_nil|].
  intros Hin. cbn. destruct (decide (l = l')) as [<-|Hne].
  - by exists [], ls.
  - apply elem_of_cons in Hin as [?|Hin]; [done|].
    destruct (IH Hin) as (l1 & l2 & -> & ->). by exists (l' :: l1), l2.
Qed.

Lemma script_listener_map (l : Listener) :
  script_listener l → l_callback l = initializeMap_fn ↔ l = visibility_listener.
Proof.
  intros [->|[->|(_ & Hplain & _)]]; [done|done|].
  split; [|by intros ->]. intros Hcb. by rewrite Hcb in Hplain.
Qed.

Lemma script_listener_visibility (l : Listener) (t : EventTarget) :
  script_listener l →
  l_target l = t ∧ l_type l = "visibilitychange"
  ↔ t = TDocument ∧ l = visibility_listener.
Proof.
  intros [->|[->|(_ & _ & _ & Hty)]]; [naive_solver..|].
  split; [naive_solver|]. by intros [_ ->].
Qed.

Lemma script_listener_ready (l : Listener) (t : EventTarget) :
  script_listener l →
  l_target l = t ∧ l_type l = "DOMContentLoaded"
  ↔ t = TDocument ∧ l = ready_listener.
Proof.
  intros [->|[->|(_ & _ & Hty & _)]]; [naive_solver..|].
  split; [naive_solver|]. by intros [_ ->].
Qed.

Lemma map_listeners_visibility (w : World) :
  Forall script_listener (listeners w) →
  map_listeners w = filter (λ l, l = visibility_listener) (listeners w).
Proof.
  intros H. unfold map_listeners. apply filter_ext_Forall.
  eapply Forall_impl; [exact H|]. apply script_listener_map.
Qed.

Lemma listeners_for_visibility (w : World) (t : EventTarget) :
  Forall script_listener (listeners w) →
  listeners_for t "visibilitychange" w =
    if decide (t = TDocument)
    then filter (λ l, l = visibility_listener) (listeners w) else [].
Proof.
  intros H. unfold listeners_for. destruct (decide (t = TDocument)) as [->|Hne].
  - apply filter_ext_Forall. eapply Forall_impl; [exact H|].
    intros l Hl. rewrite (script_listener_visibility l TDocument Hl). naive_solver.
  - induction H as [|l ls Hl _ IH]; [done|].
    rewrite filter_cons_False; [done|].
    rewrite (script_listener_visibility l t Hl). naive_solver.
Qed.

Lemma listeners_for_ready (w : World) (t : EventTarget) :
  Forall script_listener (listeners w) →
  listeners_for t "DOMContentLoaded" w =
    if decide (t = TDocument)
    then filter (λ l, l = ready_listener) (listeners w) else [].
Proof.
  intros H. unfold listeners_for. destruct (decide (t = TDocument)) as [->|Hne].
  - apply filter_ext_Forall. eapply Forall_impl; [exact H|].
    intros l Hl. rewrite (script_listener_ready l TDocument Hl). naive_solver.
  - induction H as [|l ls Hl _ IH]; [done|].
    rewrite filter_cons_False; [done|].
    rewrite (script_listener_ready l t Hl). naive_solver.
Qed.

(** [one_map] only looks at the listeners, the timers, the library calls
    and the ready state. *)
Lemma one_map_ext (v v' : World) :
  listeners v' = listeners v → timers v' = timers v →
  leaflet_calls v' = leaflet_calls v → readyState v' = readyState v →
  one_map v → one_map v'.
Proof.
  intros Hl Ht Hc Hr [H1 H2 H3]. split; [by rewrite Hl|by rewrite Ht|].
  unfold map_budget, map_attempts, map_listeners in *. by rewrite Hl, Ht, Hc, Hr.
Qed.

(** A callback that registers nothing and builds no map keeps [one_map]. *)
Lemma one_map_plain (cb : Callback) (e : Event) (v : World) :
  plain_callback cb → one_map v → one_map (run_task (call cb e) v).
Proof.
  intros Hplain Hv. pose proof (call_effect cb e v) as Heff.
  destruct (eff_registered _ _ _ Heff) as (added & ts & Hl & Ht & _ & _ & _ & _ & Hnil).
  destruct (eff_calls _ _ _ Heff) as (k & Hc & Hk).
  destruct Hnil as [-> ->]; [by intros ->|].
  rewrite Hk in Hc by (by intros ->).
  rewrite app_nil_r in Hl, Ht, Hc.
  eapply one_map_ext; eauto using eff_readyState.
Qed.

Section DispatchInvariant.
Variable P : World → Prop.
Variable ok : Listener → Prop.
Variable ty : string.
Hypothesis P_listeners : ∀ v l, P v → l ∈ listeners v → l_type l = ty → ok l.
Hypothesis P_invoke : ∀ v l e, P v → ok l → P (invoke e v l).

Lemma foldl_invoke_inv_typed (e : Event) (ls : list Listener) (v : World) :
  P v → Forall ok ls → P (foldl (invoke e) v ls).
Proof.
  intros Hv Hls. revert v Hv.
  induction Hls as [|l ls Hl _ IH]; intros v Hv; [done|].
  cbn. apply IH. by apply P_invoke.
Qed.

Lemma dispatch_inv_typed (e : Event) (v : World) :
  ev_type e = ty → P v → P (dispatch e v).
Proof.
  intros Hty Hv. unfold dispatch.
  generalize (propagation_path (document v) (ev_target e)). intros path.
  revert v Hv. induction path as [|t path IH]; intros v Hv; [done|].
  cbn. apply IH. unfold fire_at. apply foldl_invoke_inv_typed; [done|].
  apply Forall_forall. intros l [[_ Hl] Hin]%list_elem_of_filter.
  apply (P_listeners v); [done..|]. by rewrite Hl.
Qed.

End DispatchInvariant.

(** Events other than [DOMContentLoaded] and [visibilitychange] only reach
    permanent listeners with plain callbacks. *)
Lemma one_map_dispatch_plain (e : Event) (v : World) :
  ev_type e ≠ "DOMContentLoaded" → ev_type e ≠ "visibilitychange" →
  one_map v → one_map (dispatch e v).
Proof.
  intros H1 H2 Hv.
  apply (dispatch_inv_typed one_map
           (λ l, l_once l = false ∧ plain_callback (l_callback l)) (ev_type e));
    try done.
  - intros v' l [Hls _ _] Hin Hty. rewrite Forall_forall in Hls.
    destruct (Hls l Hin) as [->|[->|(? & ? & _)]]; [by cbn in Hty; subst..|done].
  - intros v' l e' Hv' [Honce Hplain]. unfold invoke. rewrite Honce.
    by apply one_map_plain.
Qed.

Lemma one_map_set_hidden (h : bool) (v : World) :
  one_map v → one_map (set_hidden h v).
Proof. by apply one_map_ext. Qed.

(** Running [initializeMap] after one of its pending triggers has been
    taken away. *)
Lemma one_map_consume (e : Event) (v v1 : World) :
  one_map v →
  Forall script_listener (listeners v1) →
  Forall (λ t, t = (initializeMap_fn, 500)) (timers v1) →
  leaflet_calls v1 = leaflet_calls v → readyState v1 = readyState v →
  filter (λ l, l = ready_listener) (listeners v1)
  = filter (λ l, l = ready_listener) (listeners v) →
  (length (map_listeners v1) + length (timers v1) + 1
   ≤ length (map_listeners v) + length (timers v))%nat →
  one_map (run_task (call initializeMap_fn e) v1).
Proof.
  intros [_ _ Hb] Hls Hts Hc Hr Hready Hless.
  pose proof (call_effect initializeMap_fn e v1) as Heff.
  destruct (eff_registered _ _ _ Heff) as (added & ts & Hl & Ht & _ & _ & _ & _ & Hnil).
  destruct (eff_calls _ _ _ Heff) as (k & Hk & _).
  destruct Hnil as [-> ->]; [done|]. rewrite app_nil_r in Hl, Ht.
  split; [by rewrite Hl|by rewrite Ht|].
  unfold map_budget, map_attempts, map_listeners in *.
  rewrite Hl, Ht, Hk, (eff_readyState _ _ _ Heff), Hr, Hready.
  pose proof (map_attempts_app (leaflet_calls v1) k) as Ha. rewrite Hc in Ha.
  rewrite Hc. lia.
Qed.

Lemma one_map_timeout (v : World) (k : nat) :
  one_map v → one_map (step v (Timeout k)).
Proof.
  intros Hv. cbn [step].
  destruct (timers v !! k) as [[cb d]|] eqn:Hk; [|done].
  pose proof Hv as [Hls Hts Hb].
  assert (Hcb : cb = initializeMap_fn).
  { rewrite Forall_forall in Hts.
    by injection (Hts _ (list_elem_of_lookup_2 _ _ _ Hk)) as -> ->. }
  subst cb. apply (one_map_consume _ v); cbn; try done.
  - by apply Forall_delete.
  - rewrite length_delete by eauto.
    apply lookup_lt_Some in Hk. unfold map_listeners. lia.
Qed.

Lemma one_map_visibility (v : World) :
  one_map v → one_map (step v VisibilityChange).
Proof.
  intros Hv0. cbn [step].
  pose proof (one_map_set_hidden (negb (hidden v)) v Hv0) as Hv.
  set (v1 := set_hidden (negb (hidden v)) v) in *.
  set (e := mkEvent "visibilitychange" TDocument).
  pose proof Hv as [Hls Hts Hb].
  unfold dispatch. cbn [ev_target e propagation_path foldl].
  assert (Hwin : ∀ u, one_map u → fire_at e u TWindow = u).
  { intros u [Hu _ _]. unfold fire_at. cbn [ev_type e].
    by rewrite (listeners_for_visibility u TWindow Hu). }
  unfold fire_at at 2. cbn [ev_type e].
  rewrite (listeners_for_visibility v1 TDocument Hls). cbn [decide].
  rewrite decide_True by done.
  assert (Hlen : (length (filter (λ l, l = visibility_listener) (listeners v1)) ≤ 1)%nat).
  { unfold map_budget in Hb. rewrite (map_listeners_visibility v1 Hls) in Hb. lia. }
  destruct (filter_eq_cases _ _ Hlen) as [->|[-> Hin]]; cbn [foldl].
  - by rewrite Hwin.
  - assert (Hone : one_map (invoke e v1 visibility_listener)).
    { change (invoke e v1 visibility_listener)
        with (run_task (call initializeMap_fn e)
                (set_listeners (remove_first visibility_listener) v1)).
      destruct (remove_first_split _ _ Hin) as (l1 & l2 & Hsplit & Hrem).
      apply (one_map_consume _ v1); try done;
        unfold map_listeners;
        change (listeners (set_listeners (remove_first visibility_listener) v1))
          with (remove_first visibility_listener (listeners v1));
        change (timers (set_listeners (remove_first visibility_listener) v1))
          with (timers v1).
      - rewrite Forall_forall in Hls |- *. intros l Hl. apply Hls.
        by apply (remove_first_subseteq visibility_listener).
      - rewrite Hrem, Hsplit, !filter_app, filter_cons_False; done.
      - rewrite Hrem, Hsplit, !filter_app.
        rewrite filter_cons_True by done. rewrite !length_app. cbn [length]. lia. }
    by rewrite Hwin.
Qed.

Lemma one_map_ready (v : World) :
  one_map v → one_map (step v DOMContentLoaded).
Proof.
  intros Hv0. cbn [step].
  destruct (decide (readyState v = Loading)) as [Hloading|]; [|done].
  pose proof Hv0 as [Hls Hts Hb].
  unfold map_budget in Hb. rewrite decide_True in Hb by done.
  set (v1 := set_readyState Interactive v).
  set (e := mkEvent "DOMContentLoaded" TDocument).
  assert (Hv : one_map v1).
  { split; [done..|]. unfold map_budget, map_attempts, map_listeners in *.
    cbn [readyState listeners timers leaflet_calls v1 set_readyState].
    rewrite decide_False by done. lia. }
  unfold dispatch. cbn [ev_target e propagation_path foldl].
  assert (Hwin : ∀ u, one_map u → fire_at e u TWindow = u).
  { intros u [Hu _ _]. unfold fire_at. cbn [ev_type e].
    by rewrite (listeners_for_ready u TWindow Hu). }
  unfold fire_at at 2. cbn [ev_type e].
  rewrite (listeners_for_ready v1 TDocument Hls). rewrite decide_True by done.
  change (listeners v1) with (listeners v).
  assert (Hlen : (length (filter (λ l, l = ready_listener) (listeners v)) ≤ 1)%nat)
    by lia.
  destruct (filter_eq_cases _ _ Hlen) as [Hnone|[Hone Hin]].
  - rewrite Hnone. cbn [foldl]. by rewrite Hwin.
  - rewrite Hone in Hb |- *. cbn [foldl length] in Hb |- *.
    assert (Hinv : one_map (invoke e v1 ready_listener)).
    { change (invoke e v1 ready_listener)
        with (run_task (call onDOMContentLoaded_fn e) v1).
      pose proof (call_effect onDOMContentLoaded_fn e v1) as Heff.
      destruct (eff_registered _ _ _ Heff)
        as (added & ts & Hl & Ht & Hadded & _ & Hshape & Hcount & _).
      destruct (eff_calls _ _ _ Heff) as (k & Hk & Hk0).
      rewrite Hk0 in Hk by done. rewrite app_nil_r in Hk.
      split.
      - rewrite Hl. by apply Forall_app.
      - rewrite Ht. by apply Forall_app.
      - unfold map_budget, map_attempts, map_listeners.
        rewrite (eff_readyState _ _ _ Heff), Hl, Ht, Hk.
        rewrite decide_False by done.
        rewrite filter_app, !length_app.
        rewrite (filter_ext_Forall (λ l, l_callback l = initializeMap_fn)
                   (λ l, l = visibility_listener) added)
          by (eapply Forall_impl; [exact Hadded|apply script_listener_map]).
        unfold map_attempts, map_listeners in Hb.
        change (leaflet_calls v1) with (leaflet_calls v).
        change (listeners v1) with (listeners v).
        change (timers v1) with (timers v). lia. }
    by rewrite Hwin.
Qed.

Lemma one_map_step (v : World) (ev : PageEvent) :
  one_map v → one_map (step v ev).
Proof.
  intros Hv. destruct ev as [| | |k|t].
  - by apply one_map_ready.
  - cbn [step]. destruct (decide (readyState v = Interactive)) as [Hi|]; [|done].
    apply one_map_dispatch_plain; [done..|].
    destruct Hv as [Hls Hts Hb]. split; [done..|].
    unfold map_budget, map_attempts, map_listeners in *.
    cbn [readyState listeners timers leaflet_calls set_readyState].
    rewrite Hi in Hb. rewrite decide_False in Hb by done.
    rewrite decide_False by done. lia.
  - by apply one_map_visibility.
  - by apply one_map_timeout.
  - cbn [step]. destruct (document v !! t); [|done].
    by apply one_map_dispatch_plain.
Qed.

Lemma one_map_load_page (w0 : World) :
  listeners w0 = [] → timers w0 = [] → leaflet_calls w0 = [] →
  one_map (load_page w0).
Proof.
  intros Hls Hts Hcalls.
  destruct (load_page_facts w0 Hls Hts)
    as (menu & extra & tm & p' & un & -> & Hmenu & Hextra & _ & Htm & _).
  destruct (filter_visibility_drawer menu Hmenu) as (Hvis & Hscript & Hother).
  assert (Hex : Forall script_listener extra ∧
                filter (λ l, l = ready_listener) extra = [] ∧
                filter (λ l, l_callback l = initializeMap_fn) extra = []).
  { clear -Hextra. induction Hextra as [|l ls Hl _ (IH1 & IH2 & IH3)]; [done|].
    rewrite !filter_cons_False, IH2, IH3;
      [|destruct Hl as [->|[b ->]]; done..].
    split; [|done]. constructor; [|done].
    right; right. destruct Hl as [->|[b ->]]; by repeat split. }
  destruct Hex as (Hex1 & Hex2 & Hex3).
  assert (Hmenu_map : filter (λ l, l_callback l = initializeMap_fn) menu = []).
  { rewrite (filter_ext_Forall _ (λ l, l = visibility_listener)); [done|].
    eapply Forall_impl; [exact Hscript|apply script_listener_map]. }
  assert (Hmenu_ready : filter (λ l, l = ready_listener) menu = []).
  { clear -Hother. induction Hother as [|l ls [_ Hl] _ IH]; [done|].
    by rewrite filter_cons_False. }
  split; cbn.
  - apply Forall_app. split; [|done].
    destruct (decide (readyState w0 = Loading)); [|done].
    constructor; [by left|done].
  - destruct Htm as [->|[_ ->]]; by repeat constructor.
  - unfold map_budget, map_attempts, map_listeners. cbn.
    rewrite Hcalls, !filter_app, Hex2, Hex3. cbn.
    destruct (decide (readyState w0 = Loading)) as [Hl|Hl].
    + destruct Htm as [->|[? _]]; [|done]. vm_compute. lia.
    + rewrite Hmenu_map. destruct Htm as [->|[_ ->]]; cbn; lia.
Qed.

(** X8: on a page where nothing was registered or built before, however
    the page's life goes on after the script has been evaluated (lifecycle
    events, visibility changes back and forth, timers, clicks anywhere), the
    map constructor [L.map] is called at most once. *)
Theorem map_built_at_most_once (w0 : World) (evs : list PageEvent) :
  listeners w0 = [] → timers w0 = [] → leaflet_calls w0 = [] →
  (map_attempts (run (load_page w0) evs) ≤ 1)%nat.
Proof.
  intros Hls Hts Hcalls.
  assert (H : one_map (run (load_page w0) evs)).
  { generalize (one_map_load_page w0 Hls Hts Hcalls).
    generalize (load_page w0). clear.
    induction evs as [|ev evs IH]; intros v Hv; [done|].
    cbn. apply IH. by apply one_map_step. }
  destruct H as [_ _ Hb]. unfold map_budget in Hb. lia.
Qed.

Lemma map_built_at_most_once_witness :
  (map_attempts
     (run (load_page (Sample.world Loading true Sample.page (Some Sample.leaflet_ok)))
          [DOMContentLoaded; VisibilityChange; Click 2; VisibilityChange;
           Timeout 0; Load; VisibilityChange]) ≤ 1)%nat.
Proof. apply map_built_at_most_once; reflexivity. Defined.

(** ** The timing report and the timing API *)

(** X9: on a page where nothing was registered before, whenever the script
    has registered the [load] listener, the start mark is there: the
    listener then completes normally and records the measure
    [app-duration] from [app-start] to [app-end]. *)
Theorem load_listener_completes (w0 : World) :
  listeners w0 = [] → timers w0 = [] →
  load_listener ∈ listeners (load_page w0) →
  ∃ w' p, onLoad (load_page w0) = (Normal tt, w') ∧
          performance w' = Some p ∧
          ("app-duration", "app-start", "app-end") ∈ measures p.
Proof.
  intros Hls Hts Hin.
  destruct (load_page_facts w0 Hls Hts)
    as (menu & extra & tm & p' & un & Hw & Hmenu & Hextra & Hload & Htm & _).
  rewrite Hw in Hin |- *. cbn [listeners] in Hin.
  assert (Hex : load_listener ∈ extra).
  { apply elem_of_app in Hin as [Hin|Hin]; [|done].
    destruct (decide (readyState w0 = Loading)).
    - apply elem_of_cons in Hin as [[=]|Hin]. by apply elem_of_nil in Hin.
    - rewrite Forall_forall in Hmenu. by destruct (Hmenu _ Hin) as ([=] & _). }
  destruct (Hload Hex) as (p0 & _ & _ & _ & ->).
  unfold onLoad, performance_mark, performance_measure, first_navigation_entry.
  js_unfold. cbn.
  rewrite (bool_decide_eq_true_2 ("app-start" ∈ (marks p0 ++ ["app-start"]) ++ ["app-end"]))
    by set_solver.
  rewrite (bool_decide_eq_true_2 ("app-end" ∈ (marks p0 ++ ["app-start"]) ++ ["app-end"]))
    by set_solver.
  cbn. destruct (navigation p0) as [|entry rest]; cbn;
    eexists _, _; (split; [reflexivity|]); (split; [reflexivity|]); cbn; set_solver.
Qed.

Lemma load_listener_completes_witness :
  ∃ w' p,
    onLoad (load_page (Sample.world Loading false Sample.page None))
    = (Normal tt, w') ∧
    performance w' = Some p ∧
    ("app-duration", "app-start", "app-end") ∈ measures p.
Proof.
  apply load_listener_completes; [reflexivity|reflexivity|].
  vm_compute. set_solver.
Defined.

(** X10: when the page has no navigation entry, the [load] listener still
    records its mark and its measure, but logs nothing: the report is
    skipped as a whole. *)
Theorem onLoad_without_entry (w : World) (p : Performance) :
  performance w = Some p → has_mark p = true → has_measure p = true →
  "app-start" ∈ marks p → navigation p = [] →
  onLoad w =
    (Normal tt,
     set_performance
       (Some (mkPerformance true true (marks p ++ ["app-end"])
                (measures p ++ [("app-duration", "app-start", "app-end")]) []))
       w).
Proof.
  intros Hp Hmark Hmeasure Hstart Hnav.
  unfold onLoad, performance_mark, performance_measure, first_navigation_entry.
  js_unfold. rewrite Hp, Hmark. cbn. rewrite Hmeasure.
  rewrite (bool_decide_eq_true_2 ("app-start" ∈ marks p ++ ["app-end"])),
          (bool_decide_eq_true_2 ("app-end" ∈ marks p ++ ["app-end"]));
    [| set_solver | set_solver].
  cbn. rewrite Hnav. cbn. rewrite ?Hmark, ?Hmeasure. reflexivity.
Qed.

Lemma onLoad_without_entry_witness :
  let p := mkPerformance true true ["app-start"] [] [] in
  let w := set_performance (Some p) (Sample.world Complete false Sample.page None) in
  onLoad w =
    (Normal tt,
     set_performance
       (Some (mkPerformance true true ["app-start"; "app-end"]
                [("app-duration", "app-start", "app-end")] []))
       w).
Proof.
  intros p w. apply (onLoad_without_entry w p); first [reflexivity|set_solver].
Defined.

(** X11: on a page where nothing was registered before and where the timing
    API is missing ([performance] undefined, or without [mark], or without
    [measure]), no performance report is ever logged, whatever happens to
    the page afterwards. *)
Theorem no_report_without_timing_api (w0 : World) (evs : list PageEvent) :
  listeners w0 = [] → timers w0 = [] →
  (∀ p, performance w0 = Some p → has_mark p = false ∨ has_measure p = false) →
  filter (λ c, is_console_log c = true) (console (run (load_page w0) evs))
  = filter (λ c, is_console_log c = true) (console w0).
Proof.
  intros Hls Hts Hapi.
  destruct (load_page_facts w0 Hls Hts)
    as (menu & extra & tm & p' & un & Hw & Hmenu & Hextra & Hload & Htm & _).
  destruct (filter_visibility_drawer menu Hmenu) as (_ & _ & Hother).
  assert (Hnoload : load_listener ∉ extra).
  { intros Hin. destruct (Hload Hin) as (p0 & Hp0 & Hm & Hme & _).
    destruct (Hapi p0 Hp0); congruence. }
  set (P := λ v : World,
         Forall (λ l, l_callback l ≠ onLoad_fn) (listeners v) ∧
         Forall (λ t : Callback * Z, t.1 ≠ onLoad_fn) (timers v) ∧
         filter (λ c, is_console_log c = true) (console v)
         = filter (λ c, is_console_log c = true) (console w0)).
  assert (H : P (run (load_page w0) evs)); [|by destruct H as (_ & _ & ?)].
  apply (run_inv P (λ cb, cb ≠ onLoad_fn)).
  - intros v l (Hl & _) Hin. rewrite Forall_forall in Hl. auto.
  - intros v k cb d (_ & Ht & _) Hk. rewrite Forall_forall in Ht.
    apply (Ht _ (list_elem_of_lookup_2 _ _ _ Hk)).
  - intros v cb e (Hl & Ht & Hc) Hcb.
    pose proof (call_effect cb e v) as Heff.
    destruct (eff_registered _ _ _ Heff)
      as (added & ts & Hl' & Ht' & _ & Hadded & Hshape & _).
    unfold P. rewrite Hl', Ht'. split; [|split].
    + apply Forall_app. split; [done|].
      eapply Forall_impl; [exact Hadded|]. by intros l [? _].
    + apply Forall_app. split; [done|].
      eapply Forall_impl; [exact Hshape|]. by intros t ->.
    + by rewrite (eff_console _ _ _ Heff Hcb).
  - intros v l (Hl & Ht & Hc) _. split; [|done]. cbn.
    rewrite Forall_forall in Hl |- *. intros l' Hin. apply Hl.
    by apply (remove_first_subseteq l).
  - by intros v r.
  - by intros v h.
  - intros v k (Hl & Ht & Hc). split; [done|]. split; [|done]. cbn.
    by apply Forall_delete.
  - rewrite Hw. unfold P. cbn. split; [|split; [|done]].
    + apply Forall_app. split.
      * destruct (decide (readyState w0 = Loading)); [by repeat constructor|].
        eapply Forall_impl; [exact Hother|]. by intros l [? _].
      * rewrite Forall_forall in Hextra |- *. intros l Hin.
        destruct (Hextra l Hin) as [->|[b ->]]; done.
    + destruct Htm as [->|[_ ->]]; by repeat constructor.
Qed.

Lemma no_report_without_timing_api_witness :
  let w0 := set_performance None (Sample.world Loading false Sample.page None) in
  filter (λ c, is_console_log c = true)
         (console (run (load_page w0) [DOMContentLoaded; Load; Click 2]))
  = filter (λ c, is_console_log c = true) (console w0).
Proof.
  intros w0. apply no_report_without_timing_api; [reflexivity|reflexivity|].
  intros p [=].
Defined.

(** ** One trigger for the map *)

Lemma extra_listener_facts (extra : list Listener) :
  Forall (λ l, l = load_listener ∨ ∃ b, l = report_listener b) extra →
  Forall script_listener extra ∧
  filter (λ l, l = ready_listener) extra = [] ∧
  filter (λ l, l_callback l = initializeMap_fn) extra = [].
Proof.
  induction 1 as [|l ls Hl _ (IH1 & IH2 & IH3)]; [done|].
  rewrite !filter_cons_False, IH2, IH3;
    [|destruct Hl as [->|[b ->]]; done..].
  split; [|done]. constructor; [|done].
  right; right. destruct Hl as [->|[b ->]]; by repeat split.
Qed.

(** The page once the deferred initialization has run, when the drawer can
    be wired: its one trigger, and what has not moved. *)
Lemma page_ready_trigger (w0 : World) :
  listeners w0 = [] → timers w0 = [] → menu_wirable (document w0) →
  let w := page_ready w0 in
  (if bool_decide (readyState w0 = Loading) && hidden w0
   then map_listeners w = [visibility_listener] ∧ timers w = []
   else map_listeners w = [] ∧ timers w = [(initializeMap_fn, 500)]) ∧
  L w = L w0 ∧ document w = document w0 ∧ leaflet_calls w = leaflet_calls w0 ∧
  hidden w = hidden w0.
Proof.
  intros Hls Hts Hwire.
  destruct (load_page_facts w0 Hls Hts)
    as (menu & extra & tm & p' & un & Hw & Hmenu & Hextra & _ & Htm & Htimer).
  destruct (extra_listener_facts extra Hextra) as (Hex1 & Hex2 & Hex3).
  destruct (filter_visibility_drawer menu Hmenu) as (_ & Hscript & _).
  assert (Hmenu_map : filter (λ l, l_callback l = initializeMap_fn) menu = []).
  { rewrite (filter_ext_Forall _ (λ l, l = visibility_listener));
      [by apply filter_visibility_drawer|].
    eapply Forall_impl; [exact Hscript|apply script_listener_map]. }
  unfold page_ready. cbn [step]. rewrite Hw. cbn [readyState].
  destruct (decide (readyState w0 = Loading)) as [Hloading|Hready];
    [rewrite (bool_decide_eq_true_2 _ Hloading)
    |rewrite (bool_decide_eq_false_2 _ Hready)]; cbn [andb].
  - destruct Htm as [->|[? _]]; [|done].
    match goal with
    | |- context [dispatch ?e (set_readyState Interactive ?W)] =>
        set (ev := e); set (v1 := set_readyState Interactive W)
    end.
    assert (Hshape1 : Forall script_listener (listeners v1)).
    { change (listeners v1) with ([ready_listener] ++ extra).
      apply Forall_app. split; [|done]. constructor; [by left|done]. }
    destruct (initializeMenu_drawer v1) as (added & Hv2 & Hadded).
    destruct (filter_visibility_drawer added Hadded) as (Hvis & Hadded_script & _).
    assert (Hadded_map : filter (λ l, l_callback l = initializeMap_fn) added = []).
    { rewrite (filter_ext_Forall _ (λ l, l = visibility_listener)); [done|].
      eapply Forall_impl; [exact Hadded_script|apply script_listener_map]. }
    pose proof (initializeMenu_completes v1 Hwire) as Hnormal.
    set (vtrig :=
           (if hidden w0
            then set_listeners (λ ls, ls ++ [visibility_listener])
            else set_timers (λ ts, ts ++ [(initializeMap_fn, 500)]))
             (set_listeners (λ ls, ls ++ added) v1)).
    assert (Hsnap : filter (λ l, l = ready_listener) (listeners v1) = [ready_listener]).
    { change (listeners v1) with ([ready_listener] ++ extra).
      rewrite filter_app, Hex2. by rewrite filter_cons_True. }
    assert (Hfire1 : fire_at ev v1 TDocument = vtrig).
    { unfold fire_at. cbn [ev_type ev].
      rewrite (listeners_for_ready v1 TDocument Hshape1), decide_True by done.
      rewrite Hsnap. cbn [foldl].
      change (invoke ev v1 ready_listener) with (run_task onDOMContentLoaded v1).
      unfold run_task, onDOMContentLoaded. js_unfold.
      destruct (initializeMenu v1) as [[[]|e] v2]; [|done].
      cbn in Hv2. subst v2. unfold vtrig.
      change (hidden (set_listeners (λ ls, ls ++ added) v1)) with (hidden w0).
      by destruct (hidden w0). }
    assert (Hl3 : listeners vtrig =
              ([ready_listener] ++ extra) ++ added ++
              (if hidden w0 then [visibility_listener] else [])).
    { unfold vtrig, set_listeners, set_timers, v1, set_readyState.
      destruct (hidden w0); cbn [listeners];
        by rewrite <- ?app_assoc, ?app_nil_r. }
    assert (Hshape3 : Forall script_listener (listeners vtrig)).
    { rewrite Hl3, !Forall_app. repeat split; try done.
      - constructor; [by left|done].
      - destruct (hidden w0); [|done]. constructor; [|done]. right; by left. }
    assert (Hfire2 : fire_at ev vtrig TWindow = vtrig).
    { unfold fire_at. cbn [ev_type ev].
      by rewrite (listeners_for_ready vtrig TWindow Hshape3), decide_False. }
    assert (Hdispatch : dispatch ev v1 = vtrig).
    { unfold dispatch. cbn [ev_target ev propagation_path foldl].
      by rewrite Hfire1, Hfire2. }
    rewrite Hdispatch.
    split; [|unfold vtrig; by destruct (hidden w0)].
    unfold map_listeners. rewrite Hl3.
    rewrite !filter_app, filter_cons_False, filter_nil, Hex3, Hadded_map by done.
    unfold vtrig. destruct (hidden w0); cbn [andb]; (split; [|reflexivity]).
    + by rewrite filter_cons_True.
    + done.
  - rewrite (Htimer Hready Hwire). split; [|done].
    unfold map_listeners. cbn. by rewrite filter_app, Hmenu_map, Hex3.
Qed.


(** X12: on a page where nothing was registered before and whose drawer can
    be wired (it is absent, or its close button is there), once the deferred
    initialization has run there is exactly one trigger for [initializeMap]:
    the one-shot visibility listener and no timer when the script ran while
    the document was loading and the page is hidden at [DOMContentLoaded];
    the 500ms timer and no listener in every other case. *)
Theorem page_ready_one_trigger (w0 : World) :
  listeners w0 = [] → timers w0 = [] → menu_wirable (document w0) →
  let w := page_ready w0 in
  if bool_decide (readyState w0 = Loading) && hidden w0
  then map_listeners w = [visibility_listener] ∧ timers w = []
  else map_listeners w = [] ∧ timers w = [(initializeMap_fn, 500)].
Proof.
  intros Hls Hts Hwire. by destruct (page_ready_trigger w0 Hls Hts Hwire).
Qed.

Lemma page_ready_one_trigger_witness :
  let w := page_ready (Sample.world Loading true Sample.page None) in
  map_listeners w = [visibility_listener] ∧ timers w = [].
Proof.
  apply (page_ready_one_trigger (Sample.world Loading true Sample.page None));
    [reflexivity|reflexivity|].
  right; right. by eexists.
Defined.

(** ** Clicks elsewhere *)

Lemma foldl_fire_at_fixed (e : Event) (v : World) (path : list EventTarget) :
  (∀ l, l ∈ listeners v → l_type l = ev_type e → l_target l ∈ path →
        invoke e v l = v) →
  foldl (fire_at e) v path = v.
Proof.
  induction path as [|t path IH]; intros Hfix; [done|]. cbn.
  assert (Hfire : fire_at e v t = v).
  { unfold fire_at.
    assert (Hall : Forall (λ l, invoke e v l = v) (listeners_for t (ev_type e) v)).
    { apply Forall_forall. intros l [[Ht Hty] Hin]%list_elem_of_filter.
      apply Hfix; [done..|]. rewrite Ht. by left. }
    induction Hall as [|l ls Hl _ IHl]; [done|]. cbn. by rewrite Hl. }
  rewrite Hfire. apply IH. intros l Hin Hty Hpath. apply Hfix; [done..|].
  by right.
Qed.

(** X13: on a page whose click listeners are the script's own, a click
    that is no drawer action and falls outside the report button changes
    nothing at all: the drawer, the scroll lock and every other part of the
    browser state stay as they are. *)
Theorem click_elsewhere_changes_nothing (v : World) (mt ms cb t : nat) :
  script_click_listeners mt ms cb (listeners v) →
  ¬ drawer_action mt ms cb (document v) t →
  (∀ b, report_listener b ∈ listeners v → b ∉ inclusive_ancestors (document v) t) →
  step v (Click t) = v.
Proof.
  intros Hscript Hnot Hreport. cbn [step].
  destruct (document v !! t) as [el|]; [|done].
  unfold dispatch. cbn [ev_target propagation_path].
  apply foldl_fire_at_fixed. cbn [ev_type].
  intros l Hin Hty Hpath.
  assert (Helem : ∀ i, TElement i ∈
            (TElement <$> inclusive_ancestors (document v) t) ++ [TDocument; TWindow] →
            i ∈ inclusive_ancestors (document v) t).
  { intros i [Hi|Hi]%elem_of_app.
    - apply list_elem_of_fmap in Hi as (j & [= ->] & Hj). done.
    - set_solver. }
  destruct (Hscript l Hin Hty) as [Hd|[b ->]].
  - unfold drawer_listeners in Hd.
    apply elem_of_cons in Hd as [->|Hd];
      [|apply elem_of_cons in Hd as [->|Hd];
        [|apply elem_of_cons in Hd as [->|Hd]; [|by apply elem_of_nil in Hd]]].
    + exfalso. apply Hnot. left. by apply Helem.
    + exfalso. apply Hnot. right; left. by apply Helem.
    + unfold invoke, run_task. cbn. js_unfold.
      destruct (closest_nav_link (document v) t) as [a|] eqn:Hlink.
      * exfalso. apply Hnot. right; right; left. by rewrite Hlink.
      * destruct (decide (t = ms)) as [->|]; [|done].
        exfalso. apply Hnot. by repeat right.
  - exfalso. apply (Hreport b Hin). by apply Helem.
Qed.

Lemma click_elsewhere_changes_nothing_witness :
  let v := page_ready (Sample.world Loading false Sample.page None) in
  step v (Click 8) = v.
Proof.
  intros v. apply (click_elsewhere_changes_nothing v 1 3 4 8).
  - intros l Hin Hty. vm_compute in Hin.
    repeat (apply elem_of_cons in Hin as [->|Hin]);
      try discriminate Hty;
      [right; by exists 9%nat|left; vm_compute; set_solver..
      |by apply elem_of_nil in Hin].
  - apply (bool_decide_unpack (¬ drawer_action 1 3 4 (document v) 8)).
    vm_compute. exact I.
  - intros b Hb. vm_compute in Hb.
    repeat (apply elem_of_cons in Hb as [Hb|Hb]); try discriminate Hb;
      [injection Hb as ->; vm_compute; set_solver|by apply elem_of_nil in Hb].
Defined.

(** ** The trigger builds the map *)

Lemma map_calls_first_attempt (n : nat) :
  length (filter (λ c, is_call_map c = true) (take (S n) map_calls)) = 1%nat.
Proof.
  pose proof (length_filter_take (λ c, is_call_map c = true) (tail map_calls) n) as H.
  change (length (filter (λ c, is_call_map c = true) (tail map_calls)))
    with 0%nat in H.
  change (take (S n) map_calls)
    with (call_map "map" :: take n (tail map_calls)).
  rewrite filter_cons_True by done. cbn [length]. lia.
Qed.

(** With the library loaded and the container present, a run of
    [initializeMap] is one more call of the map constructor. *)
Lemma initializeMap_attempt (e : Event) (v : World) (lib : Leaflet) (m : nat) :
  L v = Some lib → getElementById "map" (document v) = Some m →
  listeners (run_task (call initializeMap_fn e) v) = listeners v ∧
  timers (run_task (call initializeMap_fn e) v) = timers v ∧
  map_attempts (run_task (call initializeMap_fn e) v) = S (map_attempts v).
Proof.
  intros Hlib Hm. unfold run_task. cbn [call].
  unfold initializeMap. js_unfold. rewrite Hlib, Hm.
  unfold try_catch. rewrite buildMap_sequence.
  rewrite (leaflet_sequence_outcome lib) by done.
  unfold map_attempts.
  destruct (first_throw lib (leaflet_calls v) map_calls) as [[n err]|];
    unfold console_warn_map_error; js_unfold;
    cbn [listeners timers leaflet_calls set_console set_leaflet_calls];
    (split; [done|]); (split; [done|]);
    rewrite filter_app, length_app.
  - rewrite map_calls_first_attempt. lia.
  - change (length (filter (λ c, is_call_map c = true) map_calls)) with 1%nat. lia.
Qed.

(** X14: on a page where nothing was registered or built before, whose
    drawer can be wired, with the library loaded and the container present:
    when the one trigger of the loaded page fires (the first visibility
    change if the page was hidden while loading, the timer otherwise), the
    map constructor is called, exactly once, and no trigger is left. *)
Theorem map_built_when_triggered (w0 : World) (lib : Leaflet) (m : nat) :
  listeners w0 = [] → timers w0 = [] → leaflet_calls w0 = [] →
  menu_wirable (document w0) →
  L w0 = Some lib → getElementById "map" (document w0) = Some m →
  let trigger := if bool_decide (readyState w0 = Loading) && hidden w0
                 then VisibilityChange else Timeout 0 in
  let w := step (page_ready w0) trigger in
  map_attempts w = 1%nat ∧ map_listeners w = [] ∧ timers w = [].
Proof.
  intros Hls Hts Hcalls Hwire Hlib Hm.
  destruct (page_ready_trigger w0 Hls Hts Hwire) as (Htrig & HL & Hdoc & Hlc & _).
  assert (Hone : one_map (page_ready w0))
    by (apply one_map_step; by apply one_map_load_page).
  destruct Hone as [Hshape _ _].
  set (w1 := page_ready w0) in *.
  assert (Hzero : map_attempts w1 = 0%nat)
    by (unfold map_attempts; by rewrite Hlc, Hcalls).
  clearbody w1.
  destruct (bool_decide (readyState w0 = Loading) && hidden w0);
    destruct Htrig as [Hml Htm]; cbn zeta.
  - cbn [step].
    set (v := set_hidden (negb (hidden w1)) w1).
    set (e := mkEvent "visibilitychange" TDocument).
    assert (Hin : visibility_listener ∈ listeners v).
    { assert (H : visibility_listener ∈ map_listeners w1) by (rewrite Hml; by left).
      by apply list_elem_of_filter in H as [_ H]. }
    destruct (remove_first_split _ _ Hin) as (l1 & l2 & Hsplit & Hrem).
    assert (Hml' : filter (λ l, l_callback l = initializeMap_fn) (l1 ++ l2) = []).
    { unfold map_listeners in Hml. change (listeners w1) with (listeners v) in Hml.
      rewrite Hsplit, filter_app, filter_cons_True in Hml by done.
      rewrite filter_app.
      destruct (filter (λ l, l_callback l = initializeMap_fn) l1) as [|x r].
      - cbn [app] in Hml. injection Hml as Hml. by rewrite Hml.
      - cbn [app] in Hml. injection Hml as _ Hml. by destruct r. }
    set (v2 := set_listeners (remove_first visibility_listener) v).
    destruct (initializeMap_attempt e v2 lib m) as (Hl3 & Ht3 & Ha3);
      [by rewrite <- HL in Hlib|by rewrite <- Hdoc in Hm|].
    assert (Hfire1 : fire_at e v TDocument = run_task (call initializeMap_fn e) v2).
    { unfold fire_at. cbn [ev_type e].
      rewrite (listeners_for_visibility v TDocument Hshape), decide_True by done.
      rewrite <- (map_listeners_visibility v Hshape).
      change (map_listeners v) with (map_listeners w1). rewrite Hml. done. }
    set (v3 := run_task (call initializeMap_fn e) v2) in *.
    assert (Hl3' : listeners v3 = l1 ++ l2) by (rewrite Hl3; exact Hrem).
    assert (Hshape3 : Forall script_listener (listeners v3)).
    { rewrite Hl3'. change (listeners w1) with (listeners v) in Hshape.
      rewrite Hsplit in Hshape. rewrite !Forall_app in Hshape |- *.
      destruct Hshape as (? & [_ ?]%Forall_cons). done. }
    assert (Hfire2 : fire_at e v3 TWindow = v3).
    { unfold fire_at. cbn [ev_type e].
      by rewrite (listeners_for_visibility v3 TWindow Hshape3), decide_False. }
    unfold dispatch. cbn [ev_target e propagation_path foldl].
    rewrite Hfire1, Hfire2. unfold map_listeners. rewrite Ha3, Hl3', Ht3.
    split; [exact (f_equal S Hzero)|]. split; [done|exact Htm].
  - cbn [step]. rewrite Htm. cbn [lookup list_lookup].
    set (v2 := set_timers (delete 0%nat) w1).
    set (e := mkEvent "timeout" TWindow).
    destruct (initializeMap_attempt e v2 lib m) as (Hl3 & Ht3 & Ha3);
      [by rewrite <- HL in Hlib|by rewrite <- Hdoc in Hm|].
    unfold map_listeners. rewrite Ha3, Hl3, Ht3.
    split; [exact (f_equal S Hzero)|]. split; [exact Hml|].
    unfold v2. cbn. by rewrite Htm.
Qed.

Lemma map_built_when_triggered_witness :
  let w := step (page_ready (Sample.world Loading true Sample.page
                               (Some Sample.leaflet_ok)))
                VisibilityChange in
  map_attempts w = 1%nat ∧ map_listeners w = [] ∧ timers w = [].
Proof.
  apply (map_built_when_triggered
           (Sample.world Loading true Sample.page (Some Sample.leaflet_ok))
           Sample.leaflet_ok 8); try reflexivity.
  right; right. by eexists.
Defined.

(** ** Listeners stay *)

(** X15: a permanent listener (one registered without [once]) is never
    unregistered: whatever sequence of events reaches the page, the drawer's
    listeners, the report button's and the [load] listener stay in place
    once they are there. *)
Theorem permanent_listeners_stay (w : World) (l0 : Listener)
    (evs : list PageEvent) :
  l_once l0 = false → l0 ∈ listeners w → l0 ∈ listeners (run w evs).
Proof.
  intros Honce Hin.
  apply (run_inv (λ v, l0 ∈ listeners v) (λ _, True)); try done.
  - intros v cb e Hv _. by apply permanent_listener_kept.
  - intros v l Hv Hl. cbn. apply remove_first_other; [|done].
    intros ->. congruence.
Qed.

Lemma permanent_listeners_stay_witness :
  mkListener TDocument "click" (delegatedClick_fn 1 3) false
  ∈ listeners
      (run (page_ready (Sample.world Loading true Sample.page
                          (Some Sample.leaflet_ok)))
           [Click 2; VisibilityChange; Load; Click 6]).
Proof.
  apply permanent_listeners_stay; [reflexivity|]. vm_compute. set_solver.
Defined.

(** ** The page without its report button *)

(** On a page without a report button whose drawer can be wired, the
    script's only fault is the TypeError of its last statement; the timing
    mark is made and the [load] listener registered before it. *)
Lemma load_page_without_reportBtn (w0 : World) :
  querySelector_class "issue-report-btn" (document w0) = None →
  menu_wirable (document w0) →
  uncaught (load_page w0) = uncaught w0 ++ [TypeError "reportBtn is null"] ∧
  (∀ p, performance w0 = Some p → has_mark p = true → has_measure p = true →
        load_listener ∈ listeners (load_page w0) ∧ timing_ready (load_page w0)).
Proof.
  intros Hq Hwire.
  destruct w0 as [rs h d ov ls ts co un pf lib lc href].
  cbn [document uncaught performance] in Hq, Hwire |- *.
  unfold load_page, run_task, script, markAppStart, performance_mark,
    deferInit, wireLoadReport, wireReportBtn.
  js_unfold. cbn.
  destruct pf as [[hm hme mk me nav]|]; cbn; [destruct hm, hme; cbn|];
    (destruct (decide (rs = Loading)); cbn;
     [|match goal with
       | |- context [initializeMenu ?W] =>
           pose proof (initializeMenu_completes W Hwire) as Hn;
           destruct (initializeMenu_drawer W) as (menu & Hmenu & _);
           destruct (initializeMenu W) as [[[]|e] w2]; [|discriminate Hn];
           cbn in Hmenu; subst w2; cbn
       end]);
    rewrite ?Hq; cbn; (split; [reflexivity|]);
    intros p [= <-] Hm Hme; try discriminate.
  all: split; [set_solver|].
  all: eexists; split; [reflexivity|]; cbn; repeat split; set_solver.
Qed.

(** What the deferred initialization adds to the page the script left. *)
Lemma page_ready_shape (w0 : World) :
  listeners w0 = [] → timers w0 = [] → menu_wirable (document w0) →
  ∃ added,
    page_ready w0 =
      if decide (readyState w0 = Loading)
      then (if hidden w0
            then set_listeners (λ ls, ls ++ [visibility_listener])
            else set_timers (λ ts, ts ++ [(initializeMap_fn, 500)]))
             (set_listeners (λ ls, ls ++ added)
                (set_readyState Interactive (load_page w0)))
      else load_page w0.
Proof.
  intros Hls Hts Hwire.
  destruct (load_page_facts w0 Hls Hts)
    as (menu & extra & tm & p' & un & Hw & Hmenu & Hextra & _ & Htm & Htimer).
  destruct (extra_listener_facts extra Hextra) as (Hex1 & Hex2 & Hex3).
  unfold page_ready. cbn [step]. rewrite Hw. cbn [readyState].
  destruct (decide (readyState w0 = Loading)) as [Hloading|Hready];
    [|by exists []].
  match goal with
  | |- context [dispatch ?e (set_readyState Interactive ?W)] =>
      set (ev := e); set (v1 := set_readyState Interactive W)
  end.
  assert (Hshape1 : Forall script_listener (listeners v1)).
  { change (listeners v1) with ([ready_listener] ++ extra).
    apply Forall_app. split; [|done]. constructor; [by left|done]. }
  destruct (initializeMenu_drawer v1) as (added & Hv2 & Hadded).
  destruct (filter_visibility_drawer added Hadded) as (Hvis & Hadded_script & _).
  pose proof (initializeMenu_completes v1 Hwire) as Hnormal.
  exists added.
  set (vtrig :=
         (if hidden w0
          then set_listeners (λ ls, ls ++ [visibility_listener])
          else set_timers (λ ts, ts ++ [(initializeMap_fn, 500)]))
           (set_listeners (λ ls, ls ++ added) v1)).
  assert (Hsnap : filter (λ l, l = ready_listener) (listeners v1) = [ready_listener]).
  { change (listeners v1) with ([ready_listener] ++ extra).
    rewrite filter_app, Hex2. by rewrite filter_cons_True. }
  assert (Hfire1 : fire_at ev v1 TDocument = vtrig).
  { unfold fire_at. cbn [ev_type ev].
    rewrite (listeners_for_ready v1 TDocument Hshape1), decide_True by done.
    rewrite Hsnap. cbn [foldl].
    change (invoke ev v1 ready_listener) with (run_task onDOMContentLoaded v1).
    unfold run_task, onDOMContentLoaded. js_unfold.
    destruct (initializeMenu v1) as [[[]|e] v2]; [|done].
    cbn in Hv2. subst v2. unfold vtrig.
    change (hidden (set_listeners (λ ls, ls ++ added) v1)) with (hidden w0).
    by destruct (hidden w0). }
  assert (Hl3 : listeners vtrig =
            ([ready_listener] ++ extra) ++ added ++
            (if hidden w0 then [visibility_listener] else [])).
  { unfold vtrig, set_listeners, set_timers, v1, set_readyState.
    destruct (hidden w0); cbn [listeners];
      by rewrite <- ?app_assoc, ?app_nil_r. }
  assert (Hshape3 : Forall script_listener (listeners vtrig)).
  { rewrite Hl3, !Forall_app. repeat split; try done.
    - constructor; [by left|done].
    - destruct (hidden w0); [|done]. constructor; [|done]. right; by left. }
  assert (Hfire2 : fire_at ev vtrig TWindow = vtrig).
  { unfold fire_at. cbn [ev_type ev].
    by rewrite (listeners_for_ready vtrig TWindow Hshape3), decide_False. }
  unfold dispatch. cbn [ev_target ev propagation_path foldl].
  by rewrite Hfire1, Hfire2.
Qed.

(** C8: when no element matches the redirect-trigger selector, the failure
    of the script's last statement takes nothing away from the other three
    components. First, the script leaves the browser in exactly the state
    that lines 1-101 alone produce, and ends in the TypeError of line 108
    (unless an earlier statement threw first). Second, on a fresh page whose
    drawer can be wired, once the deferred initialization has run: that
    TypeError is the only error reported; the drawer's three listeners are
    registered; exactly one trigger of the map initializer is pending (the
    one-shot visibility listener on a page that loaded hidden, the 500 ms
    timer otherwise); and, where the timing interface is available, the
    [app-start] mark is made and the [load] listener registered. *)
Theorem reportBtn_absent_rest_wired (w : World) :
  querySelector_class "issue-report-btn" (document w) = None →
  ((script w).2 = (script_before_reportBtn w).2 ∧
   (script w).1 =
     match (script_before_reportBtn w).1 with
     | Normal _ => Throw (TypeError "reportBtn is null")
     | Throw e => Throw e
     end) ∧
  (listeners w = [] → timers w = [] → menu_wirable (document w) →
   let w' := page_ready w in
   uncaught w' = uncaught w ++ [TypeError "reportBtn is null"] ∧
   (∀ mt ms cb,
      getElementById "menuToggle" (document w) = Some mt →
      getElementById "mobileSidebar" (document w) = Some ms →
      getElementById "closeBtn" (document w) = Some cb →
      wired mt ms cb (listeners w')) ∧
   (if bool_decide (readyState w = Loading) && hidden w
    then map_listeners w' = [visibility_listener] ∧ timers w' = []
    else map_listeners w' = [] ∧ timers w' = [(initializeMap_fn, 500)]) ∧
   (∀ p, performance w = Some p → has_mark p = true → has_measure p = true →
         load_listener ∈ listeners w' ∧ timing_ready w')).
Proof.
  intros Hq. split.
  { pose proof (script_before_reportBtn_document w) as Hd.
    unfold script, script_before_reportBtn in *. js_unfold.
    destruct (markAppStart w) as [[[]|e1] w1]; [|done].
    destruct (deferInit w1) as [[[]|e2] w2]; [|done].
    destruct (wireLoadReport w2) as [[[]|e3] w3]; [|done].
    cbn in Hd. unfold wireReportBtn. js_unfold. by rewrite Hd, Hq. }
  intros Hls Hts Hwire w'.
  destruct (load_page_without_reportBtn w Hq Hwire) as [Hun Htiming].
  destruct (page_ready_shape w Hls Hts Hwire) as (added & Hshape).
  assert (Hkeep : uncaught w' = uncaught (load_page w) ∧
                  performance w' = performance (load_page w) ∧
                  ∀ l, l ∈ listeners (load_page w) → l ∈ listeners w').
  { unfold w'. rewrite Hshape.
    destruct (decide (readyState w = Loading)); [|done].
    destruct (hidden w); cbn; repeat split; set_solver. }
  destruct Hkeep as (Hu & Hp & Hl).
  split; [by rewrite Hu|].
  split; [intros mt ms cb Hmt Hms Hcb; by apply page_ready_wired|].
  split; [by apply page_ready_trigger|].
  intros p Hperf Hm Hme. destruct (Htiming p Hperf Hm Hme) as [Hin Hready].
  split; [by apply Hl|]. unfold timing_ready. by rewrite Hp.
Qed.

Lemma reportBtn_absent_rest_wired_witness :
  let w := Sample.world Loading false Sample.page_no_reportBtn None in
  let w' := page_ready w in
  ((script w).2 = (script_before_reportBtn w).2 ∧
   (script w).1 =
     match (script_before_reportBtn w).1 with
     | Normal _ => Throw (TypeError "reportBtn is null")
     | Throw e => Throw e
     end) ∧
  uncaught w' = [TypeError "reportBtn is null"] ∧
  wired 1 3 4 (listeners w') ∧
  (map_listeners w' = [] ∧ timers w' = [(initializeMap_fn, 500)]) ∧
  load_listener ∈ listeners w' ∧ timing_ready w'.
Proof.
  intros w w'.
  destruct (reportBtn_absent_rest_wired w eq_refl) as [Hsame Hrest].
  destruct Hrest as (Hu & Hw & Hm & Ht);
    [reflexivity|reflexivity|right; right; by eexists|].
  split; [exact Hsame|]. split; [exact Hu|].
  split; [by apply Hw|]. split; [exact Hm|].
  by apply (Ht Sample.perf).
Defined.
